(** * Forecast operator base model: metrics, explanations, report assembly

    A shallow embedding of
    [ads/opctl/operator/lowcode/forecast/model/base_model.py]
    (class [ForecastOperatorBaseModel]) and the properties of its
    orchestration code.

    Conventions of the embedding.
    - A numpy/pandas float is [fval]: either [NaN] or an exact rational.
      Rounding is not modelled; the code inspected here only tests values
      for NaN-ness, averages them and orders them.
    - Python exceptions are values of [exn]; a statement sequence that may
      raise and may log lives in the monad [M], a writer of [event]s over
      an error sum.
    - Dictionaries whose iteration order the code relies on are association
      lists; the per-series result dictionaries are [gmap]s. *)

From Stdlib Require Import Ascii String QArith Qround Qabs.
From stdpp Require Import base option list strings pretty gmap.

Local Open Scope string_scope.
Local Open Scope list_scope.
Local Open Scope Z_scope.

(** ** Values, labels and exceptions *)

Inductive fval :=
| NaN
| Num (q : Q).

Definition isnan (x : fval) : bool :=
  match x with NaN => true | Num _ => false end.

Definition SeriesId := string.

(** The members of [SupportedMetrics] ([..const], declared outside the
    module): pairwise distinct names, used as row and column labels. *)
Inductive SupportedMetrics :=
| SMAPE | MAPE | RMSE | R2 | EXPLAINED_VARIANCE
| MEAN_SMAPE | MEDIAN_SMAPE
| MEAN_MAPE | MEDIAN_MAPE
| MEAN_WMAPE | MEDIAN_WMAPE
| MEAN_RMSE | MEDIAN_RMSE
| MEAN_R2 | MEDIAN_R2
| MEAN_EXPLAINED_VARIANCE | MEDIAN_EXPLAINED_VARIANCE
| ELAPSED_TIME.

#[global] Instance SupportedMetrics_eq_dec : EqDecision SupportedMetrics.
Proof. solve_decision. Defined.

(** A row or column label of a data frame. *)
Inductive label :=
| Name (s : string)
| Metric (m : SupportedMetrics)
| Row (i : Z).

#[global] Instance label_eq_dec : EqDecision label.
Proof. solve_decision. Defined.

Inductive exn :=
| KeyError (k : label)
| UnboundLocalError (var : string)
| ValueError (msg : string)
| IndexError (msg : string)
| FileNotFoundError (path : string)
| AttributeError (msg : string)
| TypeError (msg : string)
| OtherError (msg : string).

(** ** Log records and file writes *)

Inductive message :=
| MsgSeriesNotInTestData (s_id : SeriesId)      (* "Error Generating Metrics: Unable to find ..." *)
| MsgNoValuesInTestData (s_id : SeriesId)       (* "No values in the test data for series: ..." *)
| MsgMissingValuesInTestData (s_id : SeriesId)  (* "Missing values in the test data for series: ..." *)
| MsgUnableTestMetrics                          (* "Unable to generate Test Metrics." *)
| MsgFullTraceback (e : exn)
| MsgBuildCompleted
| MsgTrainMetricsNotGenerated                   (* "... the training metrics could not be properly generated." *)
| MsgTestMetricsNotGenerated                    (* "... the test metrics could not be properly generated." *)
| MsgGlobalExplanationNotFormatted
| MsgLocalExplanationNotFormatted
| MsgUnableExplanations
| MsgGotError (e : exn)
| MsgOutputsGenerated
| MsgAllModelingCompleted
| MsgModelPklNotPresent
| MsgCalculatingExplanations
| MsgNoExplanationsGenerated                    (* "No explanations generated. ..." *)
| MsgSkippingExplanations (s_id : SeriesId)     (* "Skipping explanations for ..., as forecast was not generated." *)
| MsgGlobalExplanationsCompleted
| MsgLocalExplanationsCompleted.

Inductive artifact :=
| ReportHtml
| ForecastCsv
| MetricsCsv
| TestMetricsCsv
| GlobalExplanationCsv
| LocalExplanationCsv
| ModelParamsJson
| ModelPickle
| ErrorsJson.

#[global] Instance artifact_eq_dec : EqDecision artifact.
Proof. solve_decision. Defined.

Inductive event :=
| LogWarn (m : message)
| LogDebug (m : message)
| LogInfo (m : message)
| Printed (m : message)
| Written (a : artifact) (path : string) (signed : bool).

(** ** The monad of logging, raising computations *)

Definition M (A : Type) : Type := list event * (exn + A).

Definition ret {A} (a : A) : M A := ([], inr a).
Definition raise {A} (e : exn) : M A := ([], inl e).
Definition emit (ev : event) : M unit := ([ev], inr tt).
Definition lift {A} (r : exn + A) : M A := ([], r).

Definition bind {A B} (m : M A) (k : A -> M B) : M B :=
  match m with
  | (l, inl e) => (l, inl e)
  | (l, inr a) => let '(l', r) := k a in (l ++ l', r)
  end.

(** [try: m except h]: every exception of [m] is handled by [h]. *)
Definition try_except {A} (m : M A) (h : exn -> M A) : M A :=
  match m with
  | (l, inl e) => let '(l', r) := h e in (l ++ l', r)
  | (l, inr a) => (l, inr a)
  end.

Declare Scope py_scope.
Delimit Scope py_scope with py.
Notation "x <~ m ;; k" := (bind m (fun x => k))
  (at level 100, m at next level, right associativity) : py_scope.
Notation "m ;;; k" := (bind m (fun _ => k))
  (at level 100, right associativity) : py_scope.
Local Open Scope py_scope.

Definition logged {A} (m : M A) : list event := fst m.
Definition outcome {A} (m : M A) : exn + A := snd m.

(** [forM l st body]: a [for] loop over [l] threading the loop's variables. *)
Fixpoint forM {A S} (l : list A) (st : S) (body : S -> A -> M S) : M S :=
  match l with
  | [] => ret st
  | a :: l' => st' <~ body st a ;; forM l' st' body
  end.

(** ** numpy arrays *)

(** [a[start:]] for an integer start (a negative start counts from the end). *)
Definition slice_from {A} (start : Z) (a : list A) : list A :=
  if start <? 0
  then drop (Z.to_nat (Z.max 0 (Z.of_nat (length a) + start))) a
  else drop (Z.to_nat start) a.

(** [a[-horizon:]] *)
Definition last_values {A} (horizon : Z) (a : list A) : list A :=
  slice_from (- horizon) a.

(** Element-wise binary operation on one-dimensional arrays with numpy's
    broadcasting: equal lengths, or one operand of length one. *)
Definition broadcast2 {A B C} (f : A -> B -> C) (a : list A) (b : list B)
  : exn + list C :=
  if decide (length a = length b) then inr (zip_with f a b)
  else match a, b with
       | [x], _ => inr (map (f x) b)
       | _, [y] => inr (map (fun x => f x y) a)
       | _, _ => inl (ValueError "operands could not be broadcast together")
       end.

(** [~np.isnan(y_true) & ~np.isnan(y_pred)] *)
Definition valid_pair (t p : fval) : bool := negb (isnan t) && negb (isnan p).

Definition np_all (m : list bool) : bool := forallb id m.
Definition np_any (m : list bool) : bool := existsb id m.

(** Boolean-mask indexing [a[mask]]. *)
Fixpoint mask_select {A} (a : list A) (mask : list bool) : list A :=
  match a, mask with
  | x :: a', b :: mask' => if b then x :: mask_select a' mask' else mask_select a' mask'
  | _, _ => []
  end.

Definition mask_index {A} (a : list A) (mask : list bool) : exn + list A :=
  if decide (length a = length mask) then inr (mask_select a mask)
  else inl (IndexError "boolean index did not match indexed array").

Definition Qsum (l : list Q) : Q := foldr Qplus 0%Q l.

(** The numbers of an array, or [None] when one of them is NaN. *)
Fixpoint numbers (l : list fval) : option (list Q) :=
  match l with
  | [] => Some []
  | NaN :: _ => None
  | Num q :: l' => option_map (cons q) (numbers l')
  end.

Definition Qmean (qs : list Q) : fval :=
  match qs with
  | [] => NaN
  | _ => Num (Qred (Qsum qs / inject_Z (Z.of_nat (length qs))))
  end.

(** [np.mean]: NaN propagates, the mean of nothing is NaN. *)
Definition np_mean (l : list fval) : fval :=
  match numbers l with
  | Some qs => Qmean qs
  | None => NaN
  end.

Fixpoint Qinsert (x : Q) (l : list Q) : list Q :=
  match l with
  | [] => [x]
  | y :: l' => if Qle_bool x y then x :: l else y :: Qinsert x l'
  end.

Definition Qsort (l : list Q) : list Q := foldr Qinsert [] l.

(** [np.median]: middle of the sorted values (mean of the two middle ones). *)
Definition np_median (l : list fval) : fval :=
  match numbers l with
  | None => NaN
  | Some qs =>
      let s := Qsort qs in
      let n := length s in
      if Nat.eqb n 0 then NaN
      else if Nat.even n
           then Qmean (take 2 (drop (n / 2 - 1)%nat s))
           else Qmean (take 1 (drop (n / 2)%nat s))
  end.

(** ** pandas data frames *)

(** A frame has ordered row labels, ordered column labels and cells; a cell
    that is not stored reads as NaN. *)
Record DataFrame := mkDataFrame {
  index : list label;
  columns : list label;
  cells : list ((label * label) * fval)
}.

(** [pd.DataFrame()] *)
Definition new_frame : DataFrame := mkDataFrame [] [] [].

(** [df.empty]: some axis has length zero. *)
Definition df_empty (df : DataFrame) : bool :=
  match index df, columns df with
  | _ :: _, _ :: _ => false
  | _, _ => true
  end.

Fixpoint assoc {K V} `{EqDecision K} (k : K) (l : list (K * V)) : option V :=
  match l with
  | [] => None
  | (k', v) :: l' => if decide (k = k') then Some v else assoc k l'
  end.

(** [k in l] *)
Fixpoint mem {K} `{EqDecision K} (k : K) (l : list K) : bool :=
  match l with
  | [] => false
  | x :: l' => if decide (k = x) then true else mem k l'
  end.

Definition cell_at (df : DataFrame) (r c : label) : fval :=
  default NaN (assoc (r, c) (cells df)).

(** [df.loc[r]]: the row labelled [r], as the array of its values. *)
Definition loc (df : DataFrame) (r : label) : exn + list fval :=
  if mem r (index df) then inr (map (cell_at df r) (columns df))
  else inl (KeyError r).

(** Labels of [b] that [a] does not have yet, in their order. *)
Definition fresh_labels (a b : list label) : list label :=
  List.filter (fun l => negb (mem l a)) b.

(** [pd.concat([a, b], axis=1)]: columns side by side, rows outer-joined. *)
Definition concat_columns (a b : DataFrame) : DataFrame :=
  mkDataFrame (index a ++ fresh_labels (index a) (index b))
              (columns a ++ columns b)
              (cells a ++ cells b).

(** [pd.concat([a, b])]: rows stacked, columns outer-joined. *)
Definition concat_rows (a b : DataFrame) : DataFrame :=
  mkDataFrame (index a ++ index b)
              (columns a ++ fresh_labels (columns a) (columns b))
              (cells a ++ cells b).

(** [df[cols]] for a list of column labels. *)
Definition select_columns (df : DataFrame) (cols : list label) : exn + DataFrame :=
  match find (fun c => negb (mem c (columns df))) cols with
  | None => inr (mkDataFrame (index df) cols (cells df))
  | Some c => inl (KeyError c)
  end.

(** A one-row frame [pd.DataFrame({c: v, ...}, index=[r])]. *)
Definition row_frame (r : label) (vals : list (label * fval)) : DataFrame :=
  mkDataFrame [r] (map fst vals) (map (fun cv => ((r, cv.1), cv.2)) vals).

(** A one-column frame, as [pd.DataFrame.from_dict(d, orient="index", columns=[c])]. *)
Definition column_frame (c : label) (vals : list (label * fval)) : DataFrame :=
  mkDataFrame (map fst vals) [c] (map (fun rv => ((rv.1, c), rv.2)) vals).

(** ** Configuration and per-series data *)

Definition ForecastOutput := list (SeriesId * list fval).

Definition list_series_ids (fo : ForecastOutput) : list SeriesId := map fst fo.

(** [forecast_output.get_forecast(s_id)["forecast_value"].values] *)
Definition get_forecast (fo : ForecastOutput) (s_id : SeriesId) : exn + list fval :=
  match assoc s_id fo with
  | Some v => inr v
  | None => inl (KeyError (Name s_id))
  end.

(** Test data, by series: the values of the target column. *)
Definition TestData := list (SeriesId * list fval).

(** [data.get_data_for_series(s_id)[data.target_name].values] *)
Definition get_data_for_series (data : TestData) (s_id : SeriesId) : exn + list fval :=
  match assoc s_id data with
  | Some v => inr v
  | None => inl (KeyError (Name s_id))
  end.

Record ForecastOperatorSpec := mkSpec {
  model : string;
  horizon : Z;
  test_data : option string;
  previous_output_dir : option string;
  output_directory : string;
  generate_report : bool;
  generate_metrics : bool;
  generate_explanations : bool;
  generate_model_parameters : bool;
  generate_model_pickle : bool;
  target_category_columns : option (list string);
  explanations_accuracy_mode : string;
  report_filename : string;
  forecast_filename : string;
  metrics_filename : string;
  test_metrics_filename : string;
  global_explanation_filename : string;
  local_explanation_filename : string;
  errors_dict_filename : string
}.

(** ** SeriesMetricsEngine: [_test_evaluate_metrics] *)

(** What [_test_evaluate_metrics] imports from outside the module: the
    third-party scoring functions behind [_build_metrics_df], the per-horizon
    helper of [forecast.utils], the constant of [..const] and the loader
    [TestData(spec)]. *)
Class MetricsLib := {
  score : SupportedMetrics -> list fval -> list fval -> exn + fval;
  _build_metrics_per_horizon : TestData -> ForecastOutput -> exn + DataFrame;
  SUMMARY_METRICS_HORIZON_LIMIT : Z;
  load_test_data : ForecastOperatorSpec -> exn + TestData
}.

Definition series_metrics : list SupportedMetrics :=
  [SMAPE; MAPE; RMSE; R2; EXPLAINED_VARIANCE].

(** [for m in ms: d[m] = score(m, y_true, y_pred)] *)
Fixpoint score_all `{MetricsLib} (ms : list SupportedMetrics) (y_true y_pred : list fval)
  : exn + list (label * fval) :=
  match ms with
  | [] => inr []
  | m :: ms' =>
      match score m y_true y_pred with
      | inl e => inl e
      | inr v =>
          match score_all ms' y_true y_pred with
          | inl e => inl e
          | inr vs => inr ((Metric m, v) :: vs)
          end
      end
  end.

(** Modelled from the spec: [_build_metrics_df] of [forecast.utils] is not
    among the sources. The specification has it compute sMAPE, MAPE, RMSE,
    R² and explained variance of the pairs and return them as one column,
    named after the series. *)
Definition _build_metrics_df `{MetricsLib} (y_true y_pred : list fval) (series_id : SeriesId)
  : M DataFrame :=
  vals <~ lift (score_all series_metrics y_true y_pred) ;;
  ret (column_frame (Name series_id) vals).

(** The variables that live across the iterations of the loop over the
    series: [y_true] is unbound until its first assignment. *)
Record metrics_loop := mkLoop {
  y_true : option (list fval);
  total_metrics : DataFrame
}.

(** Reading a local variable. *)
Definition read_local {A} (name : string) (v : option A) : M A :=
  match v with
  | Some a => ret a
  | None => raise (UnboundLocalError name)
  end.

(** One iteration of the loop of [_test_evaluate_metrics] (lines 315-346). *)
Definition metrics_step `{MetricsLib} (horizon : Z) (forecast_output : ForecastOutput)
    (data : TestData) (st : metrics_loop) (s_id : SeriesId) : M metrics_loop :=
  y_true1 <~ try_except
      (col <~ lift (get_data_for_series data s_id) ;;
       ret (Some (last_values horizon col)))
      (fun e => match e with
                | KeyError _ =>
                    emit (LogWarn (MsgSeriesNotInTestData s_id)) ;;;
                    ret (y_true st)
                | _ => raise e
                end) ;;
  fc <~ lift (get_forecast forecast_output s_id) ;;
  let y_pred := last_values horizon fc in
  yt <~ read_local "y_true" y_true1 ;;
  drop_na_mask <~ lift (broadcast2 valid_pair yt y_pred) ;;
  if negb (np_all drop_na_mask) then
    if np_any drop_na_mask then
      emit (LogDebug (MsgNoValuesInTestData s_id)) ;;;
      ret (mkLoop (Some yt) (total_metrics st))          (* continue *)
    else
      emit (LogDebug (MsgMissingValuesInTestData s_id)) ;;;
      yt' <~ lift (mask_index yt drop_na_mask) ;;
      yp' <~ lift (mask_index y_pred drop_na_mask) ;;
      metrics_df <~ _build_metrics_df yt' yp' s_id ;;
      ret (mkLoop (Some yt') (concat_columns (total_metrics st) metrics_df))
  else
    metrics_df <~ _build_metrics_df yt y_pred s_id ;;
    ret (mkLoop (Some yt) (concat_columns (total_metrics st) metrics_df)).

(** The loop over [forecast_output.list_series_ids()]. *)
Definition metrics_loop_run `{MetricsLib} (horizon : Z) (forecast_output : ForecastOutput)
    (data : TestData) : M metrics_loop :=
  forM (list_series_ids forecast_output) (mkLoop None new_frame)
       (metrics_step horizon forecast_output data).

(** [{name: np.mean/np.median(total_metrics.loc[metric]), ...}] in the order
    of the dictionary display (lines 351-386). *)
Definition summary_entries : list (SupportedMetrics * (list fval -> fval) * SupportedMetrics) :=
  [ (MEAN_SMAPE, np_mean, SMAPE); (MEDIAN_SMAPE, np_median, SMAPE);
    (MEAN_MAPE, np_mean, MAPE); (MEDIAN_MAPE, np_median, MAPE);
    (MEAN_RMSE, np_mean, RMSE); (MEDIAN_RMSE, np_median, RMSE);
    (MEAN_R2, np_mean, R2); (MEDIAN_R2, np_median, R2);
    (MEAN_EXPLAINED_VARIANCE, np_mean, EXPLAINED_VARIANCE);
    (MEDIAN_EXPLAINED_VARIANCE, np_median, EXPLAINED_VARIANCE) ].

Fixpoint aggregate (total : DataFrame)
    (es : list (SupportedMetrics * (list fval -> fval) * SupportedMetrics))
  : exn + list (label * fval) :=
  match es with
  | [] => inr []
  | (name, f, m) :: es' =>
      match loc total (Metric m) with
      | inl e => inl e
      | inr row =>
          match aggregate total es' with
          | inl e => inl e
          | inr vs => inr ((Metric name, f row) :: vs)
          end
      end
  end.

Definition all_targets : label := Name "All Targets".

Definition summary_frame (total : DataFrame) (elapsed_time : fval) : exn + DataFrame :=
  match aggregate total summary_entries with
  | inl e => inl e
  | inr vs => inr (row_frame all_targets (vs ++ [(Metric ELAPSED_TIME, elapsed_time)]))
  end.

Definition new_column_order : list label :=
  map Metric
    [ MEAN_SMAPE; MEDIAN_SMAPE; MEAN_MAPE; MEDIAN_MAPE; MEAN_WMAPE; MEDIAN_WMAPE;
      MEAN_RMSE; MEDIAN_RMSE; MEAN_R2; MEDIAN_R2;
      MEAN_EXPLAINED_VARIANCE; MEDIAN_EXPLAINED_VARIANCE; ELAPSED_TIME ].

(** Lines 388-413: the breakdown by horizon step. *)
Definition add_metrics_per_horizon `{MetricsLib} (horizon : Z) (forecast_output : ForecastOutput)
    (data : TestData) (summary_metrics : DataFrame) : M DataFrame :=
  if horizon <=? SUMMARY_METRICS_HORIZON_LIMIT then
    metrics_per_horizon <~ lift (_build_metrics_per_horizon data forecast_output) ;;
    if negb (df_empty metrics_per_horizon) then
      lift (select_columns (concat_rows summary_metrics metrics_per_horizon)
                           new_column_order)
    else ret summary_metrics
  else ret summary_metrics.

(** [_test_evaluate_metrics(self, elapsed_time)]: the triple
    [(total_metrics, summary_metrics, data)]. *)
Definition _test_evaluate_metrics `{MetricsLib} (spec : ForecastOperatorSpec)
    (forecast_output : ForecastOutput) (elapsed_time : fval)
  : M (DataFrame * DataFrame * TestData) :=
  let summary_metrics := new_frame in
  data <~ lift (load_test_data spec) ;;
  st <~ metrics_loop_run (horizon spec) forecast_output data ;;
  let total := total_metrics st in
  if df_empty total then ret (total, summary_metrics, data)
  else
    summary_metrics <~ lift (summary_frame total elapsed_time) ;;
    summary_metrics <~ add_metrics_per_horizon (horizon spec) forecast_output data
                         summary_metrics ;;
    ret (total, summary_metrics, data).

(** ** The model object *)

(** A positional table: the training data of one series, attribution values. *)
Record Table := mkTable {
  tcolumns : list string;
  trows : list (list fval)
}.

(** A fitted model, as far as this module sees it. *)
Inductive Model := FittedModel (family : string).

Record ForecastDatasets := mkDatasets {
  series_ids : list SeriesId;
  earliest_timestamp : string;
  latest_timestamp : string;
  has_artificial_series : bool;
  _datetime_column_name : string;
  data_by_series : list (SeriesId * Table);
  horizon_by_series : list (SeriesId * Table)
}.

Record ForecastOperatorBaseModel := mkSelf {
  spec : ForecastOperatorSpec;
  datasets : ForecastDatasets;
  full_data_dict : list (SeriesId * DataFrame);
  eval_metrics : option DataFrame;
  test_eval_metrics : option DataFrame;
  original_target_column : string;
  model_parameters : list (SeriesId * string);
  loaded_models : option (gmap SeriesId Model);
  models : option (gmap SeriesId Model);
  forecast_output : option ForecastOutput;
  errors_dict : list (string * string);
  formatted_global_explanation : option Table;
  formatted_local_explanation : option Table;
  global_explanation : gmap SeriesId (list (string * fval));
  local_explanation : gmap SeriesId Table
}.

Definition set_eval_metrics (v : option DataFrame) (self : ForecastOperatorBaseModel) :=
  mkSelf (spec self) (datasets self) (full_data_dict self) v (test_eval_metrics self)
         (original_target_column self) (model_parameters self) (loaded_models self)
         (models self) (forecast_output self) (errors_dict self)
         (formatted_global_explanation self) (formatted_local_explanation self)
         (global_explanation self) (local_explanation self).

Definition set_test_eval_metrics (v : option DataFrame) (self : ForecastOperatorBaseModel) :=
  mkSelf (spec self) (datasets self) (full_data_dict self) (eval_metrics self) v
         (original_target_column self) (model_parameters self) (loaded_models self)
         (models self) (forecast_output self) (errors_dict self)
         (formatted_global_explanation self) (formatted_local_explanation self)
         (global_explanation self) (local_explanation self).

Definition set_loaded_models (v : option (gmap SeriesId Model))
    (self : ForecastOperatorBaseModel) :=
  mkSelf (spec self) (datasets self) (full_data_dict self) (eval_metrics self)
         (test_eval_metrics self)
         (original_target_column self) (model_parameters self) v
         (models self) (forecast_output self) (errors_dict self)
         (formatted_global_explanation self) (formatted_local_explanation self)
         (global_explanation self) (local_explanation self).

Definition set_global_explanation (v : gmap SeriesId (list (string * fval)))
    (self : ForecastOperatorBaseModel) :=
  mkSelf (spec self) (datasets self) (full_data_dict self) (eval_metrics self)
         (test_eval_metrics self)
         (original_target_column self) (model_parameters self) (loaded_models self)
         (models self) (forecast_output self) (errors_dict self)
         (formatted_global_explanation self) (formatted_local_explanation self)
         v (local_explanation self).

Definition set_local_explanation (v : gmap SeriesId Table)
    (self : ForecastOperatorBaseModel) :=
  mkSelf (spec self) (datasets self) (full_data_dict self) (eval_metrics self)
         (test_eval_metrics self)
         (original_target_column self) (model_parameters self) (loaded_models self)
         (models self) (forecast_output self) (errors_dict self)
         (formatted_global_explanation self) (formatted_local_explanation self)
         (global_explanation self) v.

(** Reading an attribute that is still [None] and calling a method on it. *)
Definition attr {A} (name : string) (v : option A) : M A :=
  match v with
  | Some a => ret a
  | None => raise (AttributeError name)
  end.

(** ** Report blocks *)

#[warnings="-register-all"] Inductive block :=
| Heading (text : string) (level : Z)
| Text (text : string)
| MetricBlock (heading value : string)
| DataTable (df : DataFrame) (label : option SeriesId)
| Group (children : list block)
| Select (children : list block)
| Block (children : list block)
| Separator
| Yaml (config : ForecastOperatorSpec)
| BacktestSummaryText (average_dict : list (label * fval)) (best_model : label)
| AutoSelectPlot (backtest_stats : DataFrame)
| ForecastPlots (output : ForecastOutput) (horizon : Z) (test_data : option TestData)
| ModelSection (content : block).

(** What the report and persistence code calls outside the module, and the
    methods a model family implements. *)
Class ReportLib := {
  human_time_friendly : fval -> string;
  describe : DataFrame -> DataFrame;
  merged_category_column_name : option (list string) -> option string;
  supported_models : string;
  evaluate_train_metrics : ForecastOutput -> exn + DataFrame;
  (* the CSV files that [pd.read_csv] finds, by path *)
  csv_files : gmap string DataFrame;
  load_pkl : string -> exn + gmap SeriesId Model;
  is_oci_path : string -> bool;
  (* the failure, if any, of writing an artifact to a path *)
  write_failure : artifact -> string -> option exn;
  (* abstract methods *)
  _build_model : ForecastOperatorBaseModel -> M (ForecastOperatorBaseModel * DataFrame);
  build_elapsed_time : fval;
  _generate_report :
    ForecastOperatorBaseModel -> M (ForecastOperatorBaseModel * (string * list block))
}.

(** [df.head(n)], [df.tail(n)] *)
Definition head (n : nat) (df : DataFrame) : DataFrame :=
  mkDataFrame (take n (index df)) (columns df) (cells df).

Definition tail (n : nat) (df : DataFrame) : DataFrame :=
  mkDataFrame (drop (length (index df) - n)%nat (index df)) (columns df) (cells df).

(** [pd.read_csv(path)] *)
Definition read_csv `{ReportLib} (path : string) : exn + DataFrame :=
  match csv_files !! path with
  | Some df => inr df
  | None => inl (FileNotFoundError path)
  end.

(** ** Backtest statistics *)

(** Mean of a column, missing values skipped. *)
Definition nanmean (l : list fval) : fval :=
  Qmean (omap (fun x => match x with Num q => Some q | NaN => None end) l).

(** The mean of the column [c] of a frame. *)
Definition column_mean (df : DataFrame) (c : label) : fval :=
  nanmean (map (fun r => cell_at df r c) (index df)).

(** [df.mean().to_dict()]: the mean of every column, by column label. *)
Definition column_means (df : DataFrame) : list (label * fval) :=
  map (fun c => (c, column_mean df c)) (columns df).

(** [del d[k]] *)
Definition dict_del {V} (k : label) (d : list (label * V)) : exn + list (label * V) :=
  match assoc k d with
  | Some _ => inr (filter (fun kv => kv.1 <> k) d)
  | None => inl (KeyError k)
  end.

(** The order of floats: every comparison with NaN is false. *)
Definition flt (x y : fval) : bool :=
  match x, y with
  | Num a, Num b => negb (Qle_bool b a)
  | _, _ => false
  end.

(** [min(keys, key=f)]: the first key whose value no other key undercuts. *)
Fixpoint min_from {K} (f : K -> fval) (best : K) (rest : list K) : K :=
  match rest with
  | [] => best
  | k :: rest' => min_from f (if flt (f k) (f best) then k else best) rest'
  end.

Definition py_min {K} (f : K -> fval) (keys : list K) : exn + K :=
  match keys with
  | [] => inl (ValueError "min() arg is an empty sequence")
  | k :: rest => inr (min_from f k rest)
  end.

(** [average_dict.get] *)
Definition dict_get (d : list (label * fval)) (k : label) : fval :=
  default NaN (assoc k d).

Definition backtest_report_name : string := "backtest_stats.csv".

(** Lines 255-257: the average scores without the ["backtest"] column, and
    the model that has the least of them. *)
Definition backtest_best_model (backtest_stats : DataFrame)
  : exn + (list (label * fval) * label) :=
  let average_dict := column_means backtest_stats in
  match dict_del (Name "backtest") average_dict with
  | inl e => inl e
  | inr average_dict =>
      match py_min (dict_get average_dict) (map fst average_dict) with
      | inl e => inl e
      | inr best_model => inr (average_dict, best_model)
      end
  end.

Definition backtest_stats_path (spec : ForecastOperatorSpec) : string :=
  output_directory spec ++ "/" ++ backtest_report_name.

(** Lines 250-264 of [generate_report]. *)
Definition backtest_sections_of `{ReportLib} (spec : ForecastOperatorSpec) : M (list block) :=
  if String.eqb (model spec) "auto-select" then
    backtest_stats <~ lift (read_csv (backtest_stats_path spec)) ;;
    r <~ lift (backtest_best_model backtest_stats) ;;
    let '(average_dict, best_model) := r in
    ret [ Heading "Back Testing Metrics" 2;
          DataTable backtest_stats None;
          BacktestSummaryText average_dict best_model;
          AutoSelectPlot backtest_stats ]
  else ret [].

(** ** ReportAssembler: the sections of [generate_report] *)

Definition nl : string := String (Ascii.ascii_of_nat 10) "".

Definition len_str {A} (l : list A) : string := pretty (length l).

(** Lines 142-228: the header and the previews of the data. *)
Definition summary_block `{ReportLib} (self : ForecastOperatorBaseModel)
    (elapsed_time : fval) (model_description : string) : block :=
  let header_section :=
    Block [ Heading "Forecast Report" 1;
            Text ("You selected the " ++ model (spec self) ++ " model." ++ nl
                  ++ model_description ++ nl
                  ++ "Based on your dataset, you could have also selected any of the models: "
                  ++ supported_models ++ ".");
            Group [ MetricBlock "Analysis was completed in " (human_time_friendly elapsed_time);
                    MetricBlock "Starting time index" (earliest_timestamp (datasets self));
                    MetricBlock "Ending time index" (latest_timestamp (datasets self));
                    MetricBlock "Num series" (len_str (series_ids (datasets self))) ] ] in
  let first_5_rows_blocks :=
    map (fun '(s_id, df) => DataTable (head 5 df) (Some s_id)) (full_data_dict self) in
  let last_5_rows_blocks :=
    map (fun '(s_id, df) => DataTable (tail 5 df) (Some s_id)) (full_data_dict self) in
  let data_summary_blocks :=
    map (fun '(s_id, df) => DataTable (describe df) (Some s_id)) (full_data_dict self) in
  let data_summary_sec :=
    Block [ Block [Heading "First 5 Rows of Data" 3; Select first_5_rows_blocks];
            Block [Heading "Last 5 Rows of Data" 3; Select last_5_rows_blocks];
            Block [Heading "Data Summary Statistics" 3; Select data_summary_blocks];
            Separator ] in
  Block [header_section; data_summary_sec].


(** A heading and the table under it: [[rc.Heading(title, level=2),
    rc.DataTable(x, index=True)]] when the table is available. *)
Definition table_section (title : string) (x : option DataFrame) : list block :=
  match x with
  | Some df => if negb (df_empty df) then [Heading title 2; DataTable df None] else []
  | None => []
  end.

(** Lines 230-248. *)
Definition test_metrics_sections_of (test_eval_metrics summary_metrics : option DataFrame)
  : list block :=
  let test_metrics_sections := [] in
  let test_metrics_sections :=
    test_metrics_sections ++ table_section "Test Data Evaluation Metrics" test_eval_metrics in
  test_metrics_sections ++ table_section "Test Data Summary Metrics" summary_metrics.

Definition train_metrics_sections_of (eval_metrics : option DataFrame) : list block :=
  table_section "Training Data Metrics" eval_metrics.

(** Lines 267-287. *)
Definition forecast_plots_of `{ReportLib} (self : ForecastOperatorBaseModel)
    (test_data : option TestData) : M (list block) :=
  fo <~ attr "list_series_ids" (forecast_output self) ;;
  if (0 <? Z.of_nat (length (list_series_ids fo))) then
    let series_name := merged_category_column_name (target_category_columns (spec self)) in
    let forecast_text := Heading "Forecasted Data Overlaying Historical" 2 in
    let forecast_sec := ForecastPlots fo (horizon (spec self)) test_data in
    if bool_decide (series_name <> None)
       && (1 <? Z.of_nat (length (series_ids (datasets self))))
    then ret [forecast_text; forecast_sec]
    else ret [forecast_text; forecast_sec]
  else ret [].

(** Lines 135-299: [report_sections] when the report is requested. *)
Definition build_report_sections `{ReportLib} (self : ForecastOperatorBaseModel)
    (elapsed_time : fval) (summary_metrics : option DataFrame) (test_data : option TestData)
  : M (ForecastOperatorBaseModel * list block) :=
  r <~ _generate_report self ;;
  let '(self, (model_description, other_sections)) := r in
  let summary := summary_block self elapsed_time model_description in
  let test_metrics_sections :=
    test_metrics_sections_of (test_eval_metrics self) summary_metrics in
  let train_metrics_sections := train_metrics_sections_of (eval_metrics self) in
  backtest_sections <~ backtest_sections_of (spec self) ;;
  forecast_plots <~ forecast_plots_of self test_data ;;
  ret (self,
       [summary]
       ++ backtest_sections
       ++ forecast_plots
       ++ map ModelSection other_sections
       ++ test_metrics_sections
       ++ train_metrics_sections
       ++ [Heading "Reference: YAML File" 2; Yaml (spec self)]).

(** ** PersistArtifacts: [_save_report] *)

(** [os.path.join(dir, name)] *)
Definition path_join (dir name : string) : string :=
  match name with
  | String "/" _ => name
  | _ =>
      if String.eqb dir "" then name
      else match String.get (Nat.pred (String.length dir)) dir with
           | Some "/"%char => dir ++ name
           | _ => dir ++ "/" ++ name
           end
  end.

(** Writing an artifact: [write_data], [write_pkl], the report file. *)
Definition write_artifact `{ReportLib} (a : artifact) (path : string) (signed : bool)
  : M unit :=
  match write_failure a path with
  | Some e => raise e
  | None => emit (Written a path signed)
  end.

Definition when (b : bool) (m : M unit) : M unit := if b then m else ret tt.

Definition _save_model `{ReportLib} (output_dir : string) (signed : bool) : M unit :=
  write_artifact ModelPickle (path_join output_dir "model.pkl") signed.

Definition _save_report `{ReportLib} (self : ForecastOperatorBaseModel)
    (report_sections : list block) (result_df : DataFrame)
    (metrics_df test_metrics_df : option DataFrame) : M unit :=
  let sp := spec self in
  let unique_output_dir := output_directory sp in
  let storage_options := is_oci_path unique_output_dir in
  (* report-creator html report *)
  when (generate_report sp)
    (write_artifact ReportHtml (path_join unique_output_dir (report_filename sp))
                    storage_options) ;;;
  (* forecast csv report *)
  write_artifact ForecastCsv (path_join unique_output_dir (forecast_filename sp))
                 storage_options ;;;
  (* metrics csv report *)
  when (generate_metrics sp)
    (match metrics_df with
     | Some _ =>
         write_artifact MetricsCsv (path_join unique_output_dir (metrics_filename sp))
                        storage_options
     | None => emit (LogWarn MsgTrainMetricsNotGenerated)
     end ;;;
     (* test_metrics csv report *)
     when (bool_decide (test_data sp <> None))
       match test_metrics_df with
       | Some _ =>
           write_artifact TestMetricsCsv
             (path_join unique_output_dir (test_metrics_filename sp)) storage_options
       | None => emit (LogWarn MsgTestMetricsNotGenerated)
       end) ;;;
  (* explanations csv reports *)
  when (generate_explanations sp)
    (try_except
       (match formatted_global_explanation self with
        | Some _ =>
            write_artifact GlobalExplanationCsv
              (path_join unique_output_dir (global_explanation_filename sp)) storage_options
        | None => emit (LogWarn MsgGlobalExplanationNotFormatted)
        end ;;;
        match formatted_local_explanation self with
        | Some _ =>
            write_artifact LocalExplanationCsv
              (path_join unique_output_dir (local_explanation_filename sp)) storage_options
        | None => emit (LogWarn MsgLocalExplanationNotFormatted)
        end)
       (fun e => match e with
                 | AttributeError _ =>
                     emit (LogWarn MsgUnableExplanations) ;;;
                     emit (LogDebug (MsgGotError e))
                 | _ => raise e
                 end)) ;;;
  when (generate_model_parameters sp)
    (write_artifact ModelParamsJson (path_join unique_output_dir "model_params.json")
                    storage_options) ;;;
  (* model pickle *)
  when (generate_model_pickle sp) (_save_model unique_output_dir storage_options) ;;;
  emit (LogInfo MsgOutputsGenerated) ;;;
  emit (Printed MsgOutputsGenerated) ;;;
  match errors_dict self with
  | _ :: _ =>
      write_artifact ErrorsJson (path_join unique_output_dir (errors_dict_filename sp))
                     storage_options
  | [] => emit (LogInfo MsgAllModelingCompleted)
  end.

(** ** ForecastRunOrchestrator: [generate_report] *)

Definition _load_model `{ReportLib} (self : ForecastOperatorBaseModel)
  : M ForecastOperatorBaseModel :=
  try_except
    (dir <~ match previous_output_dir (spec self) with
            | Some dir => ret dir
            | None => raise (TypeError "unsupported operand type(s) for +")
            end ;;
     m <~ lift (load_pkl (dir ++ "/model.pkl")) ;;
     ret (set_loaded_models (Some m) self))
    (fun _ => emit (LogInfo MsgModelPklNotPresent) ;;; ret self).

Definition generate_train_metrics `{ReportLib} (self : ForecastOperatorBaseModel)
  : M DataFrame :=
  fo <~ attr "forecast_output" (forecast_output self) ;;
  lift (evaluate_train_metrics fo).

(** The state after the metrics stage: the object, [summary_metrics] and
    [test_data] (lines 113-132). *)
Definition metrics_stage `{MetricsLib} `{ReportLib} (self : ForecastOperatorBaseModel)
    (elapsed_time : fval)
  : M (ForecastOperatorBaseModel * option DataFrame * option TestData) :=
  let self := set_eval_metrics None self in
  if generate_report (spec self) || generate_metrics (spec self) then
    em <~ generate_train_metrics self ;;
    let self := set_eval_metrics (Some em) self in
    if bool_decide (test_data (spec self) <> None) then
      try_except
        (fo <~ attr "forecast_output" (forecast_output self) ;;
         r <~ _test_evaluate_metrics (spec self) fo elapsed_time ;;
         let '(tem, sm, td) := r in
         ret (set_test_eval_metrics (Some tem) self, Some sm, Some td))
        (fun e =>
           emit (LogWarn MsgUnableTestMetrics) ;;;
           emit (LogDebug (MsgFullTraceback e)) ;;;
           ret (self, None, None))
    else ret (self, None, None)
  else ret (self, None, None).

(** [generate_report]: the object as the run leaves it and the sections
    handed to [_save_report]. *)
Definition generate_report_run `{MetricsLib} `{ReportLib} (self : ForecastOperatorBaseModel)
  : M (ForecastOperatorBaseModel * list block) :=
  (* load models if given *)
  self <~ (if bool_decide (previous_output_dir (spec self) <> None)
           then _load_model self else ret self) ;;
  r <~ _build_model self ;;
  let '(self, result_df) := r in
  let elapsed_time := build_elapsed_time in
  emit (LogInfo MsgBuildCompleted) ;;;
  r <~ metrics_stage self elapsed_time ;;
  let '(self, summary_metrics, test_data) := r in
  r <~ (if generate_report (spec self)
        then build_report_sections self elapsed_time summary_metrics test_data
        else ret (self, [])) ;;
  let '(self, report_sections) := r in
  _save_report self report_sections result_df (eval_metrics self) (test_eval_metrics self) ;;;
  ret (self, report_sections).

(** ** ExplanationEngine: [explain_model] *)

(** [shap.PermutationExplainer(model=explain_predict_fn, masker=...)]: the
    prediction closure is determined by the series and its fitted model. *)
Record Explainer := mkExplainer {
  explained_series : SeriesId;
  explained_model : Model;
  masker : Table
}.

(** What the explanation code calls outside the module. *)
Class ExplainLib := {
  SpeedAccuracyMode_ratio : list (string * Q);
  timestamp : fval -> fval;
  datetime_to_seconds : list fval -> list fval;
  _label_encode_dataframe : Table -> list string -> exn + Table;
  shap_values : Explainer -> Table -> exn + list (list fval)
}.

(** A method that updates the object in place and may raise part-way
    through: the log, the object as the call leaves it, and the exception
    that escaped, if any. *)
Definition Run (S : Type) : Type := list event * (S * option exn).

(** A [for] loop whose body either commits a new state or raises. *)
Fixpoint for_state {A S} (l : list A) (st : S) (body : S -> A -> M S) : Run S :=
  match l with
  | [] => ([], (st, None))
  | a :: l' =>
      match body st a with
      | (lg, inl e) => (lg, (st, Some e))
      | (lg, inr st') => let '(lg', r) := for_state l' st' body in (lg ++ lg', r)
      end
  end.

(** [int(x)] for a float: truncation towards zero. *)
Definition py_int (q : Q) : Z :=
  if Qle_bool 0 q then Qfloor q else Qceiling q.

(** [t.tail(n)] for a table. *)
Definition table_tail (n : Z) (t : Table) : Table :=
  mkTable (tcolumns t) (drop (length (trows t) - Z.to_nat n)%nat (trows t)).

Fixpoint position (name : string) (cols : list string) : option nat :=
  match cols with
  | [] => None
  | c :: cols' => if String.eqb c name then Some 0%nat else S <$> position name cols'
  end.

(** [t[name] = f(t[name])] *)
Definition update_column (name : string) (f : list fval -> list fval) (t : Table)
  : exn + Table :=
  match position name (tcolumns t) with
  | None => inl (KeyError (Name name))
  | Some j =>
      let col := f (map (fun r => nth j r NaN) (trows t)) in
      inr (mkTable (tcolumns t)
                   (zip_with (fun r v => <[j := v]> r) (trows t) col))
  end.

Definition fabs (x : fval) : fval :=
  match x with NaN => NaN | Num q => Num (Qabs q) end.

(** [np.average(a, axis=0)] of a two-dimensional array given by its rows. *)
Definition average_axis0 (rows : list (list fval)) : list fval :=
  match rows with
  | [] => []
  | r :: _ => map (fun j => np_mean (map (fun row => nth j row NaN) rows))
                  (seq 0 (length r))
  end.

(** [pd.DataFrame(vals, columns=cols)] *)
Definition frame_of_values (vals : list (list fval)) (cols : list string) : exn + Table :=
  if forallb (fun r => Nat.eqb (length r) (length cols)) vals
  then inr (mkTable cols vals)
  else inl (ValueError "Shape of passed values does not match the columns").

(** [get_horizon_at_series(s_id)] *)
Definition get_horizon_at_series (ds : ForecastDatasets) (s_id : SeriesId) : exn + Table :=
  match assoc s_id (horizon_by_series ds) with
  | Some t => inr t
  | None => inl (KeyError (Name s_id))
  end.

(** [local_explainer] (lines 708-732). *)
Definition local_explainer `{ExplainLib} (self : ForecastOperatorBaseModel)
    (kernel_explainer : Explainer) (series_id : SeriesId) (datetime_col_name : string)
  : M ForecastOperatorBaseModel :=
  data <~ lift (get_horizon_at_series (datasets self) series_id) ;;
  data <~ lift (update_column datetime_col_name datetime_to_seconds data) ;;
  data <~ lift (_label_encode_dataframe data
                  [datetime_col_name; original_target_column self]) ;;
  local_kernel_explnr_vals <~ lift (shap_values kernel_explainer data) ;;
  local_kernel_explnr_df <~ lift (frame_of_values local_kernel_explnr_vals (tcolumns data)) ;;
  ret (set_local_explanation
         (<[series_id := local_kernel_explnr_df]> (local_explanation self)) self).

(** Lines 660-665: the tail of the series' data that the explainer samples,
    its datetime column turned into timestamps. *)
Definition trim_data `{ExplainLib} (ratio : Q) (datetime_col_name : string) (data_i : Table)
  : exn + Table :=
  let data_trimmed :=
    table_tail (Z.max (py_int (inject_Z (Z.of_nat (length (trows data_i))) * ratio)) 5)
               data_i in
  update_column datetime_col_name (map timestamp) data_trimmed.

(** The body of the loop of [explain_model] (lines 658-699). *)
Definition explain_step `{ExplainLib} (ratio : Q) (datetime_col_name : string)
    (self : ForecastOperatorBaseModel) (item : SeriesId * Table)
  : M ForecastOperatorBaseModel :=
  let '(s_id, data_i) := item in
  ms <~ match models self with
        | Some ms => ret ms
        | None => raise (TypeError "argument of type 'NoneType' is not iterable")
        end ;;
  match ms !! s_id with
  | Some fitted =>
      data_trimmed <~ lift (trim_data ratio datetime_col_name data_i) ;;
      data_trimmed_encoded <~ lift (_label_encode_dataframe data_trimmed
                                      [datetime_col_name; original_target_column self]) ;;
      let kernel_explnr := mkExplainer s_id fitted data_trimmed_encoded in
      kernel_explnr_vals <~ lift (shap_values kernel_explnr data_trimmed_encoded) ;;
      self <~ local_explainer self kernel_explnr s_id datetime_col_name ;;
      if Nat.eqb (length kernel_explnr_vals) 0 then
        emit (LogWarn MsgNoExplanationsGenerated) ;;;
        ret self
      else
        ret (set_global_explanation
               (<[s_id := zip (drop 1 (tcolumns data_trimmed))
                              (average_axis0
                                 (map (fun r => map fabs (drop 1 r)) kernel_explnr_vals))]>
                  (global_explanation self))
               self)
  | None =>
      emit (LogWarn (MsgSkippingExplanations s_id)) ;;;
      ret self
  end.

(** The loop over [datasets.get_data_by_series(include_horizon=False)]. *)
Definition explain_loop `{ExplainLib} (ratio : Q) (self : ForecastOperatorBaseModel)
    (items : list (SeriesId * Table)) : Run ForecastOperatorBaseModel :=
  for_state items self (explain_step ratio (_datetime_column_name (datasets self))).

Definition explain_model `{ExplainLib} (self : ForecastOperatorBaseModel)
  : Run ForecastOperatorBaseModel :=
  match assoc (explanations_accuracy_mode (spec self)) SpeedAccuracyMode_ratio with
  | None =>
      ([LogInfo MsgCalculatingExplanations],
       (self, Some (KeyError (Name (explanations_accuracy_mode (spec self))))))
  | Some ratio =>
      match explain_loop ratio self (data_by_series (datasets self)) with
      | (lg, (self', Some e)) => (LogInfo MsgCalculatingExplanations :: lg, (self', Some e))
      | (lg, (self', None)) =>
          (LogInfo MsgCalculatingExplanations :: lg
             ++ [LogInfo MsgGlobalExplanationsCompleted; LogInfo MsgLocalExplanationsCompleted],
           (self', None))
      end
  end.

(** ** Shapes of the tables *)

(** The metrics table under construction is either still the empty frame or
    has the five metric rows and at least one column. *)
Definition metrics_shape (df : DataFrame) : Prop :=
  (index df = [] /\ columns df = [])
  \/ (index df = map Metric series_metrics /\ columns df <> []).

(** The names of the aggregate row, in the order of [summary_entries]. *)
Definition summary_names : list SupportedMetrics :=
  [ MEAN_SMAPE; MEDIAN_SMAPE; MEAN_MAPE; MEDIAN_MAPE; MEAN_RMSE; MEDIAN_RMSE;
    MEAN_R2; MEDIAN_R2; MEAN_EXPLAINED_VARIANCE; MEDIAN_EXPLAINED_VARIANCE ].


(** ** Worked instances

    Stand-ins for the collaborators, used to run the definitions on
    concrete inputs. *)

(** A scoring function shared by the five metrics: the mean absolute error,
    rejecting empty and NaN input like the third-party scorers. *)
Definition mean_abs_error (t p : list fval) : exn + fval :=
  match numbers t, numbers p with
  | Some ts, Some ps =>
      match ts with
      | [] => inl (ValueError "Found array with 0 sample(s)")
      | _ => inr (Qmean (zip_with (fun a b => Qabs (a - b)) ts ps))
      end
  | _, _ => inl (ValueError "Input contains NaN")
  end.

Definition horizon_columns : list label :=
  map Metric [MEAN_SMAPE; MEDIAN_SMAPE; MEAN_MAPE; MEDIAN_MAPE; MEAN_WMAPE; MEDIAN_WMAPE].

(** Modelled from the spec: [_build_metrics_per_horizon] of [forecast.utils]
    is not among the sources. The specification has it compute the metrics
    at each of the horizon offsets; this stand-in returns one row per
    forecast step of the first series under the six mean/median sMAPE, MAPE
    and wMAPE columns, cells left missing. *)
Definition demo_per_horizon (data : TestData) (fo : ForecastOutput) : exn + DataFrame :=
  match fo with
  | [] => inr new_frame
  | (_, fc) :: _ =>
      inr (mkDataFrame (map (fun i => Row (Z.of_nat i)) (seq 1 (length fc)))
                       horizon_columns [])
  end.

Definition demo_metrics_lib (data : TestData) : MetricsLib := {|
  score := fun _ => mean_abs_error;
  _build_metrics_per_horizon := demo_per_horizon;
  SUMMARY_METRICS_HORIZON_LIMIT := 10;
  load_test_data := fun _ => inr data
|}.

Definition demo_spec (model_name : string) (h : Z) : ForecastOperatorSpec := {|
  model := model_name;
  horizon := h;
  test_data := Some "test.csv";
  previous_output_dir := None;
  output_directory := "out";
  generate_report := true;
  generate_metrics := true;
  generate_explanations := false;
  generate_model_parameters := false;
  generate_model_pickle := false;
  target_category_columns := None;
  explanations_accuracy_mode := "FAST_APPROXIMATE";
  report_filename := "report.html";
  forecast_filename := "forecast.csv";
  metrics_filename := "metrics.csv";
  test_metrics_filename := "test_metrics.csv";
  global_explanation_filename := "global_explanation.csv";
  local_explanation_filename := "local_explanation.csv";
  errors_dict_filename := "errors.json"
|}.

Definition demo_datasets (train horizon_rows : list (SeriesId * Table)) : ForecastDatasets := {|
  series_ids := map fst train;
  earliest_timestamp := "January 01, 2024";
  latest_timestamp := "January 31, 2024";
  has_artificial_series := false;
  _datetime_column_name := "ds";
  data_by_series := train;
  horizon_by_series := horizon_rows
|}.

Definition demo_self (sp : ForecastOperatorSpec) (ds : ForecastDatasets)
    (ms : gmap SeriesId Model) (fo : ForecastOutput) : ForecastOperatorBaseModel := {|
  spec := sp;
  datasets := ds;
  full_data_dict := [];
  eval_metrics := None;
  test_eval_metrics := None;
  original_target_column := "y";
  model_parameters := [];
  loaded_models := None;
  models := Some ms;
  forecast_output := Some fo;
  errors_dict := [];
  formatted_global_explanation := None;
  formatted_local_explanation := None;
  global_explanation := ∅;
  local_explanation := ∅
|}.

(** A model family whose build and report steps do nothing, training metrics
    of one series, and the CSV files [files] on disk; every write succeeds. *)
Definition demo_report_lib (files : gmap string DataFrame) : ReportLib := {|
  human_time_friendly := fun _ => "1 second";
  describe := fun df => df;
  merged_category_column_name := fun _ => None;
  supported_models := "['arima', 'prophet']";
  evaluate_train_metrics := fun fo =>
    inr (column_frame (Name "Series 1") [(Metric SMAPE, Num 1)]);
  csv_files := files;
  load_pkl := fun path => inl (FileNotFoundError path);
  is_oci_path := fun _ => false;
  write_failure := fun _ _ => None;
  _build_model := fun self => ret (self, new_frame);
  build_elapsed_time := Num 1;
  _generate_report := fun self => ret (self, ("A demonstration model.", []))
|}.

(** An explainer that rejects data with missing values, attributes nothing
    to an empty sample and otherwise returns the data itself. *)
Definition demo_shap_values (ex : Explainer) (x : Table) : exn + list (list fval) :=
  if existsb (existsb isnan) (trows x)
  then inl (ValueError "Input contains NaN")
  else inr (trows x).

Definition demo_explain_lib : ExplainLib := {|
  SpeedAccuracyMode_ratio := [("HIGH_ACCURACY", 1%Q); ("BALANCED", 1 # 2); ("FAST_APPROXIMATE", 0%Q)];
  timestamp := fun x => x;
  datetime_to_seconds := fun l => l;
  _label_encode_dataframe := fun t _ => inr t;
  shap_values := demo_shap_values
|}.


(** Sample series. *)
Definition demo_forecast_A : ForecastOutput := [("A", [Num 1; Num 2])].
Definition demo_forecast_AB : ForecastOutput :=
  [("A", [Num 1; Num 2]); ("B", [Num 3; Num 5])].
Definition demo_test_A : TestData := [("A", [Num 1; Num 4])].
Definition demo_test_A_nan : TestData := [("A", [Num 1; NaN])].

(** Sample training data: a complete table, one with a missing value, one
    without rows; and the horizon rows of every series. *)
Definition demo_table : Table :=
  mkTable ["ds"; "x"; "y"] [[Num 1; Num 2; Num 3]; [Num 2; Num (-4); Num 3]].
Definition demo_table_nan : Table := mkTable ["ds"; "x"; "y"] [[Num 1; NaN; Num 3]].
Definition demo_table_empty : Table := mkTable ["ds"; "x"; "y"] [].
Definition demo_horizon_table : Table := mkTable ["ds"; "x"; "y"] [[Num 3; Num 2; Num 3]].

(** An object with fitted models for the series "A" and "B" only. *)
Definition demo_explain_self (items : list (SeriesId * Table)) : ForecastOperatorBaseModel :=
  demo_self (demo_spec "arima" 2)
    (demo_datasets items
       [("A", demo_horizon_table); ("B", demo_horizon_table); ("C", demo_horizon_table)])
    {["A" := FittedModel "arima"; "B" := FittedModel "arima"]}
    demo_forecast_AB.

(** Sample runs: the model selector [m], forecasts [fo], the test data behind
    [demo_metrics_lib] and the CSV files behind [demo_report_lib]. *)
Definition demo_run_self (m : string) (fo : ForecastOutput) : ForecastOperatorBaseModel :=
  demo_self (demo_spec m 2) (demo_datasets [] []) ∅ fo.


(** ** Horizon slicing: [drop_horizon], [get_horizon] *)

(** [a[:stop]] for an integer stop (a negative stop counts from the end). *)
Definition slice_to {A} (stop : Z) (a : list A) : list A :=
  if stop <? 0
  then take (Z.to_nat (Z.max 0 (Z.of_nat (length a) + stop))) a
  else take (Z.to_nat stop) a.

(** [df.iloc[: -self.spec.horizon]] *)
Definition drop_horizon (self : ForecastOperatorBaseModel) (df : Table) : Table :=
  mkTable (tcolumns df) (slice_to (- horizon (spec self)) (trows df)).

(** [df.iloc[-self.spec.horizon :]] *)
Definition get_horizon (self : ForecastOperatorBaseModel) (df : Table) : Table :=
  mkTable (tcolumns df) (slice_from (- horizon (spec self)) (trows df)).

(** ** Stages of [generate_report] and traces of [_save_report] *)

(** Lines 104-106: the previous models are loaded if a directory is given. *)
Definition load_stage `{ReportLib} (self : ForecastOperatorBaseModel)
  : M ForecastOperatorBaseModel :=
  if bool_decide (previous_output_dir (spec self) <> None)
  then _load_model self else ret self.

(** The artifacts that a trace shows written, in the order of the writes. *)
Definition written_artifacts (lg : list event) : list artifact :=
  omap (fun ev => match ev with Written a _ _ => Some a | _ => None end) lg.

(** [[x]] if [b], else nothing. *)
Definition only_if {A} (b : bool) (x : A) : list A := if b then [x] else [].

(** [x is not None] *)
Definition is_not_none {A} (x : option A) : bool :=
  match x with Some _ => true | None => false end.

(** [if d:] for a dictionary or a list: it has an entry. *)
Definition truthy {A} (l : list A) : bool :=
  match l with [] => false | _ :: _ => true end.

(** A model family as in [demo_report_lib] whose writes fail as [failure]
    says. *)
Definition demo_report_lib_failing (failure : artifact -> string -> option exn)
  : ReportLib := {|
  human_time_friendly := fun _ => "1 second";
  describe := fun df => df;
  merged_category_column_name := fun _ => None;
  supported_models := "['arima', 'prophet']";
  evaluate_train_metrics := fun fo =>
    inr (column_frame (Name "Series 1") [(Metric SMAPE, Num 1)]);
  csv_files := ∅;
  load_pkl := fun path => inl (FileNotFoundError path);
  is_oci_path := fun _ => false;
  write_failure := failure;
  _build_model := fun self => ret (self, new_frame);
  build_elapsed_time := Num 1;
  _generate_report := fun self => ret (self, ("A demonstration model.", []))
|}.

(** A spec that asks for every artifact. *)
Definition demo_spec_all : ForecastOperatorSpec := {|
  model := "arima";
  horizon := 2;
  test_data := Some "test.csv";
  previous_output_dir := Some "previous";
  output_directory := "out";
  generate_report := true;
  generate_metrics := true;
  generate_explanations := true;
  generate_model_parameters := true;
  generate_model_pickle := true;
  target_category_columns := None;
  explanations_accuracy_mode := "BALANCED";
  report_filename := "report.html";
  forecast_filename := "forecast.csv";
  metrics_filename := "metrics.csv";
  test_metrics_filename := "test_metrics.csv";
  global_explanation_filename := "global_explanation.csv";
  local_explanation_filename := "local_explanation.csv";
  errors_dict_filename := "errors.json"
|}.

(** An object with formatted explanations and one recorded error. *)
Definition demo_self_all : ForecastOperatorBaseModel := {|
  spec := demo_spec_all;
  datasets := demo_datasets [] [];
  full_data_dict := [];
  eval_metrics := None;
  test_eval_metrics := None;
  original_target_column := "y";
  model_parameters := [];
  loaded_models := None;
  models := None;
  forecast_output := Some demo_forecast_A;
  errors_dict := [("A", "failed")];
  formatted_global_explanation := Some demo_table;
  formatted_local_explanation := Some demo_table;
  global_explanation := ∅;
  local_explanation := ∅
|}.

(** Backtest statistics whose first model column holds no score at all. *)
Definition demo_backtest_stats_nan : DataFrame := {|
  index := [Row 0; Row 1];
  columns := [Name "backtest"; Name "modelA"; Name "modelB"];
  cells := [ ((Row 0, Name "backtest"), Num 0); ((Row 0, Name "modelA"), NaN);
             ((Row 0, Name "modelB"), Num (1 # 20));
             ((Row 1, Name "backtest"), Num 1); ((Row 1, Name "modelA"), NaN);
             ((Row 1, Name "modelB"), Num (1 # 20)) ]
|}.


(** The object as [__init__] leaves it, no model fitted yet, with the
    accuracy mode [mode] and the training data [items]. *)
Definition demo_new_self (mode : string) (items : list (SeriesId * Table))
  : ForecastOperatorBaseModel := {|
  spec := {|
    model := "arima";
    horizon := 2;
    test_data := None;
    previous_output_dir := None;
    output_directory := "out";
    generate_report := true;
    generate_metrics := true;
    generate_explanations := true;
    generate_model_parameters := false;
    generate_model_pickle := false;
    target_category_columns := None;
    explanations_accuracy_mode := mode;
    report_filename := "report.html";
    forecast_filename := "forecast.csv";
    metrics_filename := "metrics.csv";
    test_metrics_filename := "test_metrics.csv";
    global_explanation_filename := "global_explanation.csv";
    local_explanation_filename := "local_explanation.csv";
    errors_dict_filename := "errors.json"
  |};
  datasets := demo_datasets items [];
  full_data_dict := [];
  eval_metrics := None;
  test_eval_metrics := None;
  original_target_column := "y";
  model_parameters := [];
  loaded_models := None;
  models := None;
  forecast_output := None;
  errors_dict := [];
  formatted_global_explanation := None;
  formatted_local_explanation := None;
  global_explanation := ∅;
  local_explanation := ∅
|}.

(** * Properties *)

(** ** The monad *)

Lemma bind_inr {A B} (m : M A) (k : A -> M B) lg b :
  bind m k = (lg, inr b) ->
  exists l1 a l2, m = (l1, inr a) /\ k a = (l2, inr b) /\ lg = l1 ++ l2.
Proof.
  destruct m as [l1 [e | a]]; simpl; [discriminate |].
  destruct (k a) as [l2 r] eqn:Hk. intros [= <- ->]. eauto 6.
Qed.

Lemma bind_ok {A B} (m : M A) (k : A -> M B) l1 a :
  m = (l1, inr a) -> bind m k = (l1 ++ (k a).1, (k a).2).
Proof. intros ->. simpl. by destruct (k a). Qed.

Lemma bind_raise {A B} (m : M A) (k : A -> M B) l1 e :
  m = (l1, inl e) -> bind m k = (l1, inl e).
Proof. by intros ->. Qed.

Lemma outcome_inr {A} (m : M A) a : outcome m = inr a -> exists lg, m = (lg, inr a).
Proof. destruct m as [lg r]. simpl. intros ->. eauto. Qed.

Lemma lift_inr {A} (r : exn + A) lg a : lift r = (lg, inr a) -> r = inr a /\ lg = [].
Proof. unfold lift. by intros [= <- ->]. Qed.

Lemma forM_invariant {A S} (P : S -> Prop) (body : S -> A -> M S) l :
  (forall st a lg st', body st a = (lg, inr st') -> P st -> P st') ->
  forall st lg st', forM l st body = (lg, inr st') -> P st -> P st'.
Proof.
  intros Hbody. induction l as [| a l IH]; simpl; intros st lg st' Hrun HP.
  - injection Hrun as <- <-. done.
  - apply bind_inr in Hrun as (l1 & st1 & l2 & Hb & Hrest & _).
    eapply IH; [exact Hrest |]. eapply Hbody; eauto.
Qed.

(** ** SeriesMetricsEngine *)

Section Metrics.
Context `{MetricsLib}.

Lemma score_all_labels ms yt yp vals :
  score_all ms yt yp = inr vals -> map fst vals = map Metric ms.
Proof.
  revert vals. induction ms as [| m ms IH]; simpl; intros vals.
  - by intros [= <-].
  - destruct (score m yt yp); [discriminate |].
    destruct (score_all ms yt yp); [discriminate |].
    intros [= <-]. simpl. f_equal. by apply IH.
Qed.

Lemma _build_metrics_df_inr yt yp s lg df :
  _build_metrics_df yt yp s = (lg, inr df) ->
  lg = [] /\ index df = map Metric series_metrics /\ columns df = [Name s].
Proof.
  unfold _build_metrics_df. intros Hb.
  apply bind_inr in Hb as (l1 & vals & l2 & Hs & Hr & ->).
  apply lift_inr in Hs as [Hs ->]. injection Hr as <- <-.
  split; [done |]. split; [| done].
  exact (score_all_labels _ _ _ _ Hs).
Qed.

Lemma concat_columns_shape total df s :
  metrics_shape total ->
  index df = map Metric series_metrics -> columns df = [Name s] ->
  metrics_shape (concat_columns total df).
Proof.
  intros [[Hi Hc] | [Hi Hc]] Hdi Hdc; right; unfold concat_columns; simpl;
    rewrite Hi, Hdi, Hdc.
  - split; [done |]. rewrite Hc. done.
  - split; [done |]. destruct (columns total); [done | done].
Qed.

Lemma metrics_shape_empty df :
  metrics_shape df -> df_empty df = true -> index df = [] /\ columns df = [].
Proof.
  intros [? | [Hi Hc]]; [done |]. unfold df_empty. rewrite Hi.
  destruct (columns df); [done | discriminate].
Qed.

Lemma try_lookup_inr (data : TestData) horizon s (st : metrics_loop) lg v :
  try_except
    (col <~ lift (get_data_for_series data s) ;; ret (Some (last_values horizon col)))
    (fun e => match e with
              | KeyError _ => emit (LogWarn (MsgSeriesNotInTestData s)) ;;; ret (y_true st)
              | _ => raise e
              end) = (lg, inr v) ->
  (exists col, assoc s data = Some col /\ v = Some (last_values horizon col) /\ lg = [])
  \/ (assoc s data = None /\ v = y_true st /\ lg = [LogWarn (MsgSeriesNotInTestData s)]).
Proof.
  unfold get_data_for_series. destruct (assoc s data) as [col |]; simpl.
  - intros [= <- <-]. left. eauto.
  - intros [= <- <-]. right. eauto.
Qed.

Lemma metrics_step_shape horizon fo data st s lg st' :
  metrics_step horizon fo data st s = (lg, inr st') ->
  metrics_shape (total_metrics st) -> metrics_shape (total_metrics st').
Proof.
  unfold metrics_step. intros Hstep Hshape.
  apply bind_inr in Hstep as (l1 & yt1 & l2 & _ & Hstep & _).
  apply bind_inr in Hstep as (l3 & fc & l4 & _ & Hstep & _).
  apply bind_inr in Hstep as (l5 & yt & l6 & _ & Hstep & _).
  apply bind_inr in Hstep as (l7 & mask & l8 & _ & Hstep & _).
  destruct (negb (np_all mask)); [destruct (np_any mask) |].
  - apply bind_inr in Hstep as (? & ? & ? & _ & Hr & _). by injection Hr as _ <-.
  - apply bind_inr in Hstep as (? & ? & ? & _ & Hstep & _).
    apply bind_inr in Hstep as (? & yt' & ? & _ & Hstep & _).
    apply bind_inr in Hstep as (? & yp' & ? & _ & Hstep & _).
    apply bind_inr in Hstep as (? & df & ? & Hdf & Hr & _).
    injection Hr as _ <-. simpl.
    apply _build_metrics_df_inr in Hdf as (_ & Hi & Hc).
    by eapply concat_columns_shape.
  - apply bind_inr in Hstep as (? & df & ? & Hdf & Hr & _).
    injection Hr as _ <-. simpl.
    apply _build_metrics_df_inr in Hdf as (_ & Hi & Hc).
    by eapply concat_columns_shape.
Qed.

Lemma metrics_loop_shape horizon fo data lg st :
  metrics_loop_run horizon fo data = (lg, inr st) -> metrics_shape (total_metrics st).
Proof.
  unfold metrics_loop_run. intros Hrun.
  eapply (forM_invariant (fun st => metrics_shape (total_metrics st))); [| exact Hrun |].
  - intros ? ? ? ?. apply metrics_step_shape.
  - left. done.
Qed.

(** *** The body of the loop, case by case *)

Lemma _build_metrics_df_ok yt yp s vals :
  score_all series_metrics yt yp = inr vals ->
  _build_metrics_df yt yp s = ret (column_frame (Name s) vals).
Proof. unfold _build_metrics_df. by intros ->. Qed.

#[local] Arguments _build_metrics_df : simpl never.
#[local] Arguments last_values : simpl never.

(** All pairs valid: the series contributes its column. *)
Lemma metrics_step_complete horizon fo data st s col fc vals :
  assoc s data = Some col -> assoc s fo = Some fc ->
  length (last_values horizon col) = length (last_values horizon fc) ->
  np_all (zip_with valid_pair (last_values horizon col) (last_values horizon fc)) = true ->
  score_all series_metrics (last_values horizon col) (last_values horizon fc) = inr vals ->
  metrics_step horizon fo data st s
  = ([], inr (mkLoop (Some (last_values horizon col))
                     (concat_columns (total_metrics st) (column_frame (Name s) vals)))).
Proof.
  intros Hd Hf Hlen Hall Hscore.
  unfold metrics_step, get_data_for_series, get_forecast.
  rewrite Hd, Hf. simpl. unfold broadcast2. rewrite decide_True by done. simpl.
  rewrite Hall, (_build_metrics_df_ok _ _ _ _ Hscore). done.
Qed.

(** Some pairs valid, some not: the branch commented "All values are
    missing" is taken and the series is passed over. *)
Lemma metrics_step_partly_missing horizon fo data st s col fc :
  assoc s data = Some col -> assoc s fo = Some fc ->
  length (last_values horizon col) = length (last_values horizon fc) ->
  np_any (zip_with valid_pair (last_values horizon col) (last_values horizon fc)) = true ->
  np_all (zip_with valid_pair (last_values horizon col) (last_values horizon fc)) = false ->
  metrics_step horizon fo data st s
  = ([LogDebug (MsgNoValuesInTestData s)],
     inr (mkLoop (Some (last_values horizon col)) (total_metrics st))).
Proof.
  intros Hd Hf Hlen Hany Hall.
  unfold metrics_step, get_data_for_series, get_forecast.
  rewrite Hd, Hf. simpl. unfold broadcast2. rewrite decide_True by done. simpl.
  rewrite Hall, Hany. done.
Qed.



(** A series that the test data does not have, met first: [y_true] was never
    assigned. *)
Lemma metrics_step_missing_unbound horizon fo data st s fc :
  assoc s data = None -> assoc s fo = Some fc -> y_true st = None ->
  metrics_step horizon fo data st s
  = ([LogWarn (MsgSeriesNotInTestData s)], inl (UnboundLocalError "y_true")).
Proof.
  intros Hd Hf Hy. unfold metrics_step, get_data_for_series, get_forecast.
  rewrite Hd, Hf, Hy. done.
Qed.

(** A series that the test data does not have, met later: the true values
    of the series before it are scored against its forecast. *)
Lemma metrics_step_missing_stale horizon fo data st s fc yt vals :
  assoc s data = None -> assoc s fo = Some fc -> y_true st = Some yt ->
  length yt = length (last_values horizon fc) ->
  np_all (zip_with valid_pair yt (last_values horizon fc)) = true ->
  score_all series_metrics yt (last_values horizon fc) = inr vals ->
  metrics_step horizon fo data st s
  = ([LogWarn (MsgSeriesNotInTestData s)],
     inr (mkLoop (Some yt)
                 (concat_columns (total_metrics st) (column_frame (Name s) vals)))).
Proof.
  intros Hd Hf Hy Hlen Hall Hscore.
  unfold metrics_step, get_data_for_series, get_forecast.
  rewrite Hd, Hf, Hy. simpl. unfold broadcast2. rewrite decide_True by done. simpl.
  rewrite Hall, (_build_metrics_df_ok _ _ _ _ Hscore). done.
Qed.

Lemma assoc_head {V} (s : SeriesId) (v : V) rest : assoc s ((s, v) :: rest) = Some v.
Proof. simpl. by rewrite decide_True. Qed.

(** C1. A series that is in both the forecast output and the test data and
    whose last [horizon] pairs hold at least one valid pair and at least one
    NaN gets no column: the call returns the empty metrics table (and the
    empty summary) for a forecast output made of that series alone, where the
    claim has the NaN positions dropped and one column produced. *)
Theorem partly_missing_series_gets_no_column spec data s col fc t :
  load_test_data spec = inr data ->
  assoc s data = Some col ->
  length (last_values (horizon spec) col) = length (last_values (horizon spec) fc) ->
  np_any (zip_with valid_pair (last_values (horizon spec) col)
                              (last_values (horizon spec) fc)) = true ->
  np_all (zip_with valid_pair (last_values (horizon spec) col)
                              (last_values (horizon spec) fc)) = false ->
  _test_evaluate_metrics spec [(s, fc)] t
  = ([LogDebug (MsgNoValuesInTestData s)], inr (new_frame, new_frame, data)).
Proof.
  intros Hload Hd Hlen Hany Hall.
  unfold _test_evaluate_metrics, metrics_loop_run. rewrite Hload. simpl.
  rewrite (metrics_step_partly_missing _ _ _ _ _ col fc); auto using assoc_head.
Qed.

(** C2. A series with forecast output that the test data does not have at
    all, met first by the loop: the warning is logged, nothing skips the rest
    of the iteration, and reading [y_true] raises [UnboundLocalError] out of
    [_test_evaluate_metrics]. *)
Theorem missing_first_series_raises spec data s fc rest t :
  load_test_data spec = inr data ->
  assoc s data = None ->
  _test_evaluate_metrics spec ((s, fc) :: rest) t
  = ([LogWarn (MsgSeriesNotInTestData s)], inl (UnboundLocalError "y_true")).
Proof.
  intros Hload Hd.
  unfold _test_evaluate_metrics, metrics_loop_run. rewrite Hload. simpl.
  rewrite (metrics_step_missing_unbound _ _ _ _ _ fc); auto using assoc_head.
Qed.

(** *** The summary *)

Lemma mem_app {K} `{EqDecision K} (k : K) (a b : list K) :
  mem k (a ++ b) = mem k a || mem k b.
Proof. induction a as [| x a IH]; simpl; [done |]. by destruct (decide (k = x)). Qed.

Lemma mem_true {K} `{EqDecision K} (k : K) (l : list K) : mem k l = true <-> k ∈ l.
Proof.
  induction l as [| x l IH]; simpl.
  - split; [discriminate | by intros ?%elem_of_nil].
  - rewrite elem_of_cons. destruct (decide (k = x)) as [-> | Hne].
    + split; auto.
    + rewrite IH. split; [auto | by intros [? | ?]].
Qed.

Lemma mem_fresh (c : label) (a b : list label) :
  mem c (fresh_labels a b) = negb (mem c a) && mem c b.
Proof.
  unfold fresh_labels. induction b as [| x b IH]; simpl.
  - by rewrite andb_false_r.
  - destruct (decide (c = x)) as [-> | Hne].
    + destruct (mem x a); simpl; [apply IH |]. by rewrite decide_True.
    + destruct (mem x a); simpl; [apply IH |]. by rewrite decide_False.
Qed.

Lemma aggregate_labels total es vals :
  aggregate total es = inr vals -> map fst vals = map (fun e => Metric e.1.1) es.
Proof.
  revert vals. induction es as [| [[name f] m] es IH]; simpl; intros vals.
  - by intros [= <-].
  - destruct (loc total (Metric m)); [discriminate |].
    destruct (aggregate total es); [discriminate |].
    intros [= <-]. simpl. f_equal. by apply IH.
Qed.

(** The aggregate of lines 351-386 is one row, "All Targets", holding the
    mean and the median of each metric and the elapsed time. *)
Lemma summary_frame_inr total t agg :
  summary_frame total t = inr agg ->
  exists vals, agg = row_frame all_targets (vals ++ [(Metric ELAPSED_TIME, t)])
               /\ map fst vals = map Metric summary_names.
Proof.
  unfold summary_frame. destruct (aggregate total summary_entries) as [| vals] eqn:Ha;
    [discriminate |].
  intros [= <-]. exists vals. split; [done |].
  by rewrite (aggregate_labels _ _ _ Ha).
Qed.

Lemma summary_frame_ok total t :
  index total = map Metric series_metrics ->
  exists agg, summary_frame total t = inr agg.
Proof.
  intros Hi. unfold summary_frame, summary_entries, aggregate, loc. rewrite Hi.
  simpl. eauto.
Qed.

Lemma row_frame_index r vals : index (row_frame r vals) = [r].
Proof. done. Qed.

Lemma summary_columns vals t :
  map fst vals = map Metric summary_names ->
  columns (row_frame all_targets (vals ++ [(Metric ELAPSED_TIME, t)]))
  = map Metric (summary_names ++ [ELAPSED_TIME]).
Proof. intros Hv. simpl. by rewrite map_app, Hv. Qed.

(** Reordering to [new_column_order] goes through exactly when the breakdown
    brings the two wMAPE columns that the aggregate lacks. *)
Lemma select_new_column_order agg mph :
  columns agg = map Metric (summary_names ++ [ELAPSED_TIME]) ->
  Metric MEAN_WMAPE ∈ columns mph -> Metric MEDIAN_WMAPE ∈ columns mph ->
  select_columns (concat_rows agg mph) new_column_order
  = inr (mkDataFrame (index agg ++ index mph) new_column_order (cells agg ++ cells mph)).
Proof.
  intros Hc H1%mem_true H2%mem_true.
  unfold select_columns, concat_rows. simpl. rewrite Hc.
  rewrite !mem_app, !mem_fresh, H1, H2. done.
Qed.


#[local] Arguments summary_frame : simpl never.
#[local] Arguments select_columns : simpl never.
#[local] Arguments row_frame : simpl never.
#[local] Arguments add_metrics_per_horizon : simpl never.

(** What is left of [_test_evaluate_metrics] once the data is loaded and the
    loop over the series has ended. *)
Lemma _test_evaluate_metrics_after_loop spec fo t data lg st :
  load_test_data spec = inr data ->
  metrics_loop_run (horizon spec) fo data = (lg, inr st) ->
  _test_evaluate_metrics spec fo t
  = (_ <~ (lg, inr tt) ;;
     if df_empty (total_metrics st) then ret (total_metrics st, new_frame, data)
     else
       summary_metrics <~ lift (summary_frame (total_metrics st) t) ;;
       summary_metrics <~ add_metrics_per_horizon (horizon spec) fo data summary_metrics ;;
       ret (total_metrics st, summary_metrics, data)).
Proof.
  intros Hload Hloop. unfold _test_evaluate_metrics. rewrite Hload. simpl.
  rewrite Hloop. simpl.
  by destruct (if df_empty (total_metrics st) then _ else _) as [? ?].
Qed.


(** C4, as the code has it. With at least one metrics column: when the
    horizon is at or below the limit and the breakdown is not empty (and
    brings the wMAPE columns), its rows are stacked after the "All Targets"
    row and the columns are put in the canonical order; when the breakdown
    comes back empty the aggregate is returned as it is; above the limit the
    breakdown is not computed and the summary is the "All Targets" row
    alone. *)
Theorem breakdown_appended_up_to_limit spec fo t data lg st :
  load_test_data spec = inr data ->
  metrics_loop_run (horizon spec) fo data = (lg, inr st) ->
  df_empty (total_metrics st) = false ->
  exists agg,
    summary_frame (total_metrics st) t = inr agg
    /\ index agg = [all_targets]
    /\ (forall mph,
          horizon spec <= SUMMARY_METRICS_HORIZON_LIMIT ->
          _build_metrics_per_horizon data fo = inr mph ->
          df_empty mph = false ->
          Metric MEAN_WMAPE ∈ columns mph -> Metric MEDIAN_WMAPE ∈ columns mph ->
          exists summary,
            _test_evaluate_metrics spec fo t = (lg, inr (total_metrics st, summary, data))
            /\ index summary = all_targets :: index mph
            /\ columns summary = new_column_order)
    /\ (forall mph,
          horizon spec <= SUMMARY_METRICS_HORIZON_LIMIT ->
          _build_metrics_per_horizon data fo = inr mph ->
          df_empty mph = true ->
          _test_evaluate_metrics spec fo t = (lg, inr (total_metrics st, agg, data)))
    /\ (SUMMARY_METRICS_HORIZON_LIMIT < horizon spec ->
        _test_evaluate_metrics spec fo t = (lg, inr (total_metrics st, agg, data))).
Proof.
  intros Hload Hloop He.
  pose proof (metrics_loop_shape _ _ _ _ _ Hloop) as [[Hi Hc] | [Hi Hc]].
  { unfold df_empty in He. by rewrite Hi in He. }
  destruct (summary_frame_ok _ t Hi) as [agg Hagg].
  destruct (summary_frame_inr _ _ _ Hagg) as (vals & -> & Hv).
  eexists. split; [done |]. split; [done |].
  rewrite (_test_evaluate_metrics_after_loop _ _ _ _ _ _ Hload Hloop), He, Hagg.
  unfold add_metrics_per_horizon. split; [| split].
  - intros mph Hlim Hmph Hne H1 H2.
    rewrite (proj2 (Z.leb_le _ _)) by done. rewrite Hmph. simpl. rewrite Hne.
    cbn [negb]. rewrite select_new_column_order; [| by apply summary_columns | done | done].
    simpl. rewrite !app_nil_r. eexists. split; [reflexivity |]. done.
  - intros mph Hlim Hmph Hemp.
    rewrite (proj2 (Z.leb_le _ _)) by done. rewrite Hmph. simpl. rewrite Hemp.
    simpl. by rewrite !app_nil_r.
  - intros Hlim. rewrite (proj2 (Z.leb_gt _ _)) by done. simpl. by rewrite !app_nil_r.
Qed.

End Metrics.

(** ** Backtest statistics: the best model *)








Lemma assoc_after_del {V} (g : label -> V) (bt c : label) (cols : list label) :
  c ∈ cols -> c <> bt ->
  assoc c (filter (fun kv => kv.1 <> bt) (map (fun c => (c, g c)) cols)) = Some (g c).
Proof.
  induction cols as [| x cols IH]; [by intros ?%elem_of_nil |].
  intros Hin Hne. simpl. rewrite filter_cons. simpl.
  destruct (decide (x <> bt)) as [Hx | Hx].
  - simpl. destruct (decide (c = x)) as [-> | Hcx]; [done |].
    apply IH; [| done]. apply elem_of_cons in Hin as [? | ?]; done.
  - apply IH; [| done]. apply elem_of_cons in Hin as [-> | ?]; [| done].
    by destruct Hx.
Qed.



(** ** ReportAssembler *)

Section Report.
Context `{MetricsLib} `{ReportLib}.







Lemma _save_report_unit self sections df m tm lg (u : unit) :
  _save_report self sections df m tm = (lg, inr u) -> u = tt.
Proof. by destruct u. Qed.




Lemma assoc_column_means stats c :
  c ∈ columns stats -> is_Some (assoc c (column_means stats)).
Proof.
  unfold column_means. induction (columns stats) as [| x cols IH];
    [by intros ?%elem_of_nil |].
  intros Hin. simpl. destruct (decide (c = x)); [by eexists |].
  apply IH. by apply elem_of_cons in Hin as [? | ?].
Qed.





End Report.

(** ** PersistArtifacts *)

Section Persist.
Context `{ReportLib}.

Lemma logged_bind_all {A B} (P : event -> Prop) (m : M A) (k : A -> M B) :
  Forall P (logged m) -> (forall a, Forall P (logged (k a))) ->
  Forall P (logged (bind m k)).
Proof.
  destruct m as [l [e | a]]; simpl; [done |]. intros Hl Hk.
  specialize (Hk a). destruct (k a) as [l' r]. simpl in *. by apply Forall_app.
Qed.

Lemma logged_try_all {A} (P : event -> Prop) (m : M A) (h : exn -> M A) :
  Forall P (logged m) -> (forall e, Forall P (logged (h e))) ->
  Forall P (logged (try_except m h)).
Proof.
  destruct m as [l [e | a]]; simpl; [| done]. intros Hl Hh.
  specialize (Hh e). destruct (h e) as [l' r]. simpl in *. by apply Forall_app.
Qed.

Lemma logged_write_all (P : event -> Prop) a path signed :
  P (Written a path signed) -> Forall P (logged (write_artifact a path signed)).
Proof.
  intros HP. unfold write_artifact. destruct (write_failure a path); simpl; [done |].
  by apply Forall_singleton.
Qed.

Lemma logged_emit_all (P : event -> Prop) ev : P ev -> Forall P (logged (emit ev)).
Proof. intros HP. by apply Forall_singleton. Qed.

Lemma logged_when_all (P : event -> Prop) b m :
  Forall P (logged m) -> Forall P (logged (when b m)).
Proof. by destruct b. Qed.

Lemma logged_bind_l {A B} (m : M A) (k : A -> M B) ev :
  ev ∈ logged m -> ev ∈ logged (bind m k).
Proof.
  destruct m as [l [e | a]]; simpl; [done |]. intros Hl.
  destruct (k a) as [l' r]. simpl. apply elem_of_app. by left.
Qed.

Lemma logged_bind_r {A B} (m : M A) (k : A -> M B) l a ev :
  m = (l, inr a) -> ev ∈ logged (k a) -> ev ∈ logged (bind m k).
Proof.
  intros -> Hk. simpl. destruct (k a) as [l' r]. simpl in *. apply elem_of_app. by right.
Qed.

(** The report step of [_save_report] when its write, if any, succeeds. *)
Lemma report_step_ok sp path signed :
  (generate_report sp = true -> write_failure ReportHtml path = None) ->
  exists l, when (generate_report sp) (write_artifact ReportHtml path signed) = (l, inr tt).
Proof.
  intros Hok. destruct (generate_report sp); simpl; [| by eexists].
  unfold write_artifact. rewrite Hok by done. by eexists.
Qed.

(** C6, as the code has it. With metrics requested and the training metrics
    table [None], [_save_report] never writes a metrics CSV; once the report
    (if requested) and the forecast CSV are written, the forecast CSV is in
    the trace and the warning about the training metrics is logged; and when
    no write fails the call returns. *)
Theorem no_metrics_csv_when_metrics_none self sections result_df test_metrics_df :
  generate_metrics (spec self) = true ->
  (forall path signed,
      Written MetricsCsv path signed
      ∉ logged (_save_report self sections result_df None test_metrics_df))
  /\ ((generate_report (spec self) = true ->
       write_failure ReportHtml
         (path_join (output_directory (spec self)) (report_filename (spec self))) = None) ->
      write_failure ForecastCsv
        (path_join (output_directory (spec self)) (forecast_filename (spec self))) = None ->
      Written ForecastCsv
        (path_join (output_directory (spec self)) (forecast_filename (spec self)))
        (is_oci_path (output_directory (spec self)))
      ∈ logged (_save_report self sections result_df None test_metrics_df)
      /\ LogWarn MsgTrainMetricsNotGenerated
         ∈ logged (_save_report self sections result_df None test_metrics_df))
  /\ ((forall a path, write_failure a path = None) ->
      outcome (_save_report self sections result_df None test_metrics_df) = inr tt).
Proof.
  intros Hgm. split; [| split].
  - intros path signed Hin.
    assert (Hall : Forall (fun ev => forall p s, ev <> Written MetricsCsv p s)
                     (logged (_save_report self sections result_df None test_metrics_df))).
    { unfold _save_report, _save_model.
      repeat first
        [ apply logged_bind_all; [| intros ?]
        | apply logged_when_all
        | apply logged_try_all; [| intros []]
        | apply logged_write_all; done
        | apply logged_emit_all; done
        | done
        | match goal with |- context [match ?x with _ => _ end] => destruct x end ]. }
    rewrite Forall_forall in Hall. by eapply Hall.
  - intros Hrep Hfc. unfold _save_report.
    destruct (report_step_ok _ _ (is_oci_path (output_directory (spec self))) Hrep)
      as [l Hstep].
    split.
    + eapply logged_bind_r; [exact Hstep |]. apply logged_bind_l.
      unfold write_artifact. rewrite Hfc. by apply list_elem_of_singleton.
    + eapply logged_bind_r; [exact Hstep |].
      eapply logged_bind_r; [unfold write_artifact; by rewrite Hfc |].
      apply logged_bind_l. rewrite Hgm. cbn [when]. apply logged_bind_l.
      by apply list_elem_of_singleton.
  - intros Hok. unfold _save_report, _save_model, write_artifact. rewrite Hgm.
    rewrite !Hok.
    destruct (generate_report (spec self)), (bool_decide (test_data (spec self) <> None)),
      test_metrics_df, (generate_explanations (spec self)),
      (formatted_global_explanation self), (formatted_local_explanation self),
      (generate_model_parameters (spec self)), (generate_model_pickle (spec self)),
      (errors_dict self); reflexivity.
Qed.

End Persist.

(** ** ExplanationEngine *)

Section Explain.
Context `{ExplainLib}.

Lemma for_state_cons_ok {A S} (a : A) (l : list A) (st : S) (body : S -> A -> M S) lg st' :
  for_state (a :: l) st body = (lg, (st', None)) ->
  exists l1 st1 l2,
    body st a = (l1, inr st1) /\ for_state l st1 body = (l2, (st', None)) /\ lg = l1 ++ l2.
Proof.
  simpl. destruct (body st a) as [l1 [e | st1]]; [discriminate |].
  destruct (for_state l st1 body) as [l2 r] eqn:Hrest. intros [= <- ->]. eauto 6.
Qed.

(** An exception in the body ends the loop: the items after it are not
    visited. *)
Lemma for_state_raise {A S} (pre post : list A) (a : A) (st st1 : S)
    (body : S -> A -> M S) lg l e :
  for_state pre st body = (lg, (st1, None)) ->
  body st1 a = (l, inl e) ->
  for_state (pre ++ a :: post) st body = (lg ++ l, (st1, Some e)).
Proof.
  revert st lg. induction pre as [| b pre IH]; intros st lg; simpl.
  - intros [= <- <-] ->. done.
  - destruct (body st b) as [l1 [e1 | st2]]; [discriminate |].
    destruct (for_state pre st2 body) as [l2 r] eqn:Hpre. intros [= <- ->] Ha.
    rewrite (IH _ _ Hpre Ha). by rewrite app_assoc.
Qed.

Lemma local_explainer_inr self ex s dt lg self' :
  local_explainer self ex s dt = (lg, inr self') ->
  lg = []
  /\ exists df, self' = set_local_explanation (<[s := df]> (local_explanation self)) self.
Proof.
  unfold local_explainer. intros Hl.
  apply bind_inr in Hl as (? & d1 & ? & [_ ->]%lift_inr & Hl & ->).
  apply bind_inr in Hl as (? & d2 & ? & [_ ->]%lift_inr & Hl & ->).
  apply bind_inr in Hl as (? & d3 & ? & [_ ->]%lift_inr & Hl & ->).
  apply bind_inr in Hl as (? & vals & ? & [_ ->]%lift_inr & Hl & ->).
  apply bind_inr in Hl as (? & df & ? & [_ ->]%lift_inr & Hl & ->).
  injection Hl as <- <-. split; [done |]. by exists df.
Qed.

#[local] Arguments local_explainer : simpl never.
#[local] Arguments trim_data : simpl never.

(** A series without a fitted model: a warning, and the object as it was. *)
Lemma explain_step_skip ratio dt self s data_i ms :
  models self = Some ms -> ms !! s = None ->
  explain_step ratio dt self (s, data_i)
  = ([LogWarn (MsgSkippingExplanations s)], inr self).
Proof. intros Hm Hs. unfold explain_step. rewrite Hm. simpl. by rewrite Hs. Qed.

(** A series with a fitted model, once its explainer is built and has
    produced the attribution values [vals]: the local explanation is
    computed and stored first, then [vals] is tested for emptiness. *)
Lemma explain_step_fitted ratio dt self s data_i ms fitted trimmed encoded vals :
  models self = Some ms -> ms !! s = Some fitted ->
  trim_data ratio dt data_i = inr trimmed ->
  _label_encode_dataframe trimmed [dt; original_target_column self] = inr encoded ->
  shap_values (mkExplainer s fitted encoded) encoded = inr vals ->
  explain_step ratio dt self (s, data_i)
  = (self1 <~ local_explainer self (mkExplainer s fitted encoded) s dt ;;
     if Nat.eqb (length vals) 0 then
       emit (LogWarn MsgNoExplanationsGenerated) ;;; ret self1
     else
       ret (set_global_explanation
              (<[s := zip (drop 1 (tcolumns trimmed))
                          (average_axis0 (map (fun r => map fabs (drop 1 r)) vals))]>
                 (global_explanation self1))
              self1)).
Proof.
  intros Hm Hs Htrim Henc Hshap. unfold explain_step.
  rewrite Hm. simpl. rewrite Hs, Htrim. simpl. rewrite Henc. simpl. rewrite Hshap. simpl.
  destruct (local_explainer _ _ _ _) as [? [? | ?]]; [done |].
  by destruct (Nat.eqb (length vals) 0).
Qed.

(** What an iteration that returns has done to the object. *)
Lemma explain_step_inr ratio dt self s data_i lg self' :
  explain_step ratio dt self (s, data_i) = (lg, inr self') ->
  models self' = models self
  /\ original_target_column self' = original_target_column self
  /\ datasets self' = datasets self
  /\ (forall s', s' <> s ->
        global_explanation self' !! s' = global_explanation self !! s'
        /\ local_explanation self' !! s' = local_explanation self !! s')
  /\ (forall s', is_Some (local_explanation self !! s') ->
                 is_Some (local_explanation self' !! s'))
  /\ (forall ms, models self = Some ms -> ms !! s = None -> self' = self)
  /\ (forall ms fitted, models self = Some ms -> ms !! s = Some fitted ->
        is_Some (local_explanation self' !! s)
        /\ (forall trimmed encoded,
              trim_data ratio dt data_i = inr trimmed ->
              _label_encode_dataframe trimmed [dt; original_target_column self]
              = inr encoded ->
              shap_values (mkExplainer s fitted encoded) encoded = inr [] ->
              global_explanation self' = global_explanation self)).
Proof.
  unfold explain_step. intros Hstep.
  apply bind_inr in Hstep as (? & ms & ? & Hms & Hstep & _).
  destruct (models self) as [ms0 |] eqn:Hm; [| discriminate]. injection Hms as _ <-.
  destruct (ms0 !! s) as [fitted |] eqn:Hs.
  - apply bind_inr in Hstep as (? & trimmed & ? & [Htrim _]%lift_inr & Hstep & _).
    apply bind_inr in Hstep as (? & encoded & ? & [Henc _]%lift_inr & Hstep & _).
    apply bind_inr in Hstep as (? & vals & ? & [Hshap _]%lift_inr & Hstep & _).
    apply bind_inr in Hstep as (? & self1 & ? & Hloc & Hstep & _).
    apply local_explainer_inr in Hloc as (_ & df & ->).
    assert (Hres : self' = set_local_explanation (<[s := df]> (local_explanation self)) self
                   \/ (vals <> [] /\ exists g,
                         self' = set_global_explanation
                                   (<[s := g]> (global_explanation self))
                                   (set_local_explanation
                                      (<[s := df]> (local_explanation self)) self))).
    { destruct vals as [| v vals]; simpl in Hstep.
      - injection Hstep as _ <-. by left.
      - injection Hstep as _ <-. right. split; [done |]. by eexists. }
    split; [by destruct Hres as [-> | (_ & g & ->)] |].
    split; [by destruct Hres as [-> | (_ & g & ->)] |].
    split; [by destruct Hres as [-> | (_ & g & ->)] |].
    split; [| split; [| split]].
    + intros s' Hne. destruct Hres as [-> | (_ & g & ->)]; simpl;
        by rewrite ?lookup_insert_ne.
    + intros s' Hsome. destruct Hres as [-> | (_ & g & ->)]; simpl;
        (destruct (decide (s = s')) as [-> | Hne];
         [by rewrite lookup_insert_eq | by rewrite lookup_insert_ne]).
    + intros ms' [= <-] Hnone. congruence.
    + intros ms' fitted' [= <-] Hfit. rewrite Hs in Hfit. injection Hfit as <-. split.
      * destruct Hres as [-> | (_ & g & ->)]; simpl; by rewrite lookup_insert_eq.
      * intros trimmed' encoded' Htrim' Henc' Hshap'.
        rewrite Htrim in Htrim'. injection Htrim' as <-.
        rewrite Henc in Henc'. injection Henc' as <-.
        rewrite Hshap in Hshap'. injection Hshap' as ->.
        by destruct Hres as [-> | ([] & _)].
  - apply bind_inr in Hstep as (? & [] & ? & _ & Hstep & _). injection Hstep as _ <-.
    split; [done |]. split; [done |]. split; [done |]. split; [done |].
    split; [done |]. split; [done |]. intros ms' fitted [= <-] Hfit. congruence.
Qed.

#[local] Arguments explain_step : simpl never.

(** What the loop, however it ends, leaves untouched. *)
Lemma explain_loop_frame ratio dt items : forall self lg self' oe,
  for_state items self (explain_step ratio dt) = (lg, (self', oe)) ->
  models self' = models self
  /\ original_target_column self' = original_target_column self
  /\ datasets self' = datasets self
  /\ (forall s ms, models self = Some ms -> ms !! s = None ->
        global_explanation self' !! s = global_explanation self !! s
        /\ local_explanation self' !! s = local_explanation self !! s)
  /\ (forall s, s ∉ map fst items ->
        global_explanation self' !! s = global_explanation self !! s)
  /\ (forall s, is_Some (local_explanation self !! s) ->
                is_Some (local_explanation self' !! s)).
Proof.
  induction items as [| [s0 d0] items IH]; intros self lg self' oe; simpl.
  - intros ?. simplify_eq. split_and!; intros; try split; auto.
  - destruct (explain_step ratio dt self (s0, d0)) as [l1 [e | self1]] eqn:Hstep.
    { intros ?. simplify_eq. split_and!; intros; try split; auto. }
    destruct (for_state items self1 _) as [l2 r] eqn:Hrest. intros [= <- ->].
    apply explain_step_inr in Hstep as (Hm & Ho & Hd & Hother & Hmono & Hskip & _).
    apply IH in Hrest as (Hm' & Ho' & Hd' & Hnone' & Hfresh' & Hmono').
    split; [congruence |]. split; [congruence |]. split; [congruence |].
    split; [| split].
    + intros s ms Hms Hs.
      destruct (Hnone' s ms) as [-> ->]; [congruence | done |].
      destruct (decide (s = s0)) as [-> | Hne]; [| by apply Hother].
      by rewrite (Hskip ms Hms Hs).
    + intros s Hs. rewrite not_elem_of_cons in Hs. destruct Hs as [Hne Hs].
      rewrite (Hfresh' s Hs). by apply Hother.
    + intros s Hs. by apply Hmono', Hmono.
Qed.

(** A loop that runs to its end has logged the warning of every series it
    passed over. *)
Lemma explain_loop_warns ratio dt items : forall self lg self' ms s d,
  for_state items self (explain_step ratio dt) = (lg, (self', None)) ->
  models self = Some ms -> ms !! s = None -> (s, d) ∈ items ->
  LogWarn (MsgSkippingExplanations s) ∈ lg.
Proof.
  induction items as [| [s0 d0] items IH]; intros self lg self' ms s d Hrun Hm Hs Hin.
  { by apply elem_of_nil in Hin. }
  apply for_state_cons_ok in Hrun as (l1 & self1 & l2 & Hstep & Hrest & ->).
  apply elem_of_app. apply elem_of_cons in Hin as [[= <- <-] | Hin].
  - left. rewrite (explain_step_skip _ _ _ _ _ _ Hm Hs) in Hstep.
    injection Hstep as <- _. by apply list_elem_of_singleton.
  - right. apply explain_step_inr in Hstep as (Hm1 & _).
    eapply IH; eauto. congruence.
Qed.

(** Dropping the series without a fitted model from the loop changes neither
    the object it ends on nor the exception that escapes it. *)
Lemma explain_loop_filter ratio dt ms items : forall self,
  models self = Some ms ->
  (for_state items self (explain_step ratio dt)).2
  = (for_state (filter (fun it => is_Some (ms !! it.1)) items) self
       (explain_step ratio dt)).2.
Proof.
  induction items as [| [s0 d0] items IH]; intros self Hm; [done |].
  rewrite filter_cons. simpl. destruct (decide (is_Some (ms !! s0))) as [Hs | Hs].
  - simpl. destruct (explain_step ratio dt self (s0, d0)) as [l1 [e | self1]] eqn:Hstep;
      [done |].
    apply explain_step_inr in Hstep as (Hm1 & _).
    specialize (IH self1 ltac:(congruence)).
    destruct (for_state items self1 _) as [l2 r], (for_state (filter _ items) self1 _).
    done.
  - rewrite (explain_step_skip _ _ _ _ _ ms Hm);
      [| by destruct (ms !! s0); [destruct Hs; eexists |]].
    specialize (IH self Hm). by destruct (for_state items self _) as [l2 r].
Qed.


Lemma explain_model_inv self lg self' oe :
  explain_model self = (lg, (self', oe)) ->
  (assoc (explanations_accuracy_mode (spec self)) SpeedAccuracyMode_ratio = None
   /\ self' = self /\ oe <> None)
  \/ exists ratio lg',
       assoc (explanations_accuracy_mode (spec self)) SpeedAccuracyMode_ratio = Some ratio
       /\ explain_loop ratio self (data_by_series (datasets self)) = (lg', (self', oe))
       /\ (forall ev, ev ∈ lg' -> ev ∈ lg).
Proof.
  unfold explain_model.
  destruct (assoc (explanations_accuracy_mode (spec self)) SpeedAccuracyMode_ratio)
    as [ratio |] eqn:Hr.
  - destruct (explain_loop ratio self (data_by_series (datasets self)))
      as [lg' [self1 [e |]]] eqn:Hl; intros ?; simplify_eq; right; exists ratio, lg'.
    + split; [done |]. split; [done |]. intros ev Hev. apply elem_of_cons. by right.
    + split; [done |]. split; [done |]. intros ev Hev. apply elem_of_cons. right.
      apply elem_of_app. by left.
  - intros ?. simplify_eq. by left.
Qed.

(** C3, as the code has it. A series without a fitted model is passed over
    with a warning: its entries in the global and local explanations stay as
    they were, and the loop ends on the same object, with the same exception
    if any, as if the series were not in the data. Nothing in the loop
    catches an exception: one raised while a series is explained leaves
    [explain_model] at once, with the object as the series before it left
    it, and the series after it are not visited. *)
Theorem series_without_model_is_passed_over :
  (forall self lg self' oe ms s,
      explain_model self = (lg, (self', oe)) ->
      models self = Some ms -> ms !! s = None ->
      global_explanation self' !! s = global_explanation self !! s
      /\ local_explanation self' !! s = local_explanation self !! s
      /\ (forall d, oe = None -> (s, d) ∈ data_by_series (datasets self) ->
            LogWarn (MsgSkippingExplanations s) ∈ lg))
  /\ (forall ratio self ms items,
        models self = Some ms ->
        (explain_loop ratio self items).2
        = (explain_loop ratio self (filter (fun it => is_Some (ms !! it.1)) items)).2)
  /\ (forall ratio self pre a post lg self1 l e,
        explain_loop ratio self pre = (lg, (self1, None)) ->
        explain_step ratio (_datetime_column_name (datasets self)) self1 a = (l, inl e) ->
        explain_loop ratio self (pre ++ a :: post) = (lg ++ l, (self1, Some e))).
Proof.
  split; [| split].
  - intros self lg self' oe ms s Hrun Hm Hs.
    apply explain_model_inv in Hrun as [(_ & -> & Hoe) | (ratio & lg' & _ & Hloop & Hsub)].
    { split; [done |]. split; [done |]. by intros d ->. }
    unfold explain_loop in Hloop.
    pose proof (explain_loop_frame _ _ _ _ _ _ _ Hloop) as (_ & _ & _ & Hnone & _).
    destruct (Hnone s ms Hm Hs) as [Hg Hl]. split; [done |]. split; [done |].
    intros d -> Hin. apply Hsub. by eapply explain_loop_warns.
  - intros ratio self ms items Hm. unfold explain_loop. by apply explain_loop_filter.
  - intros ratio self pre a post lg self1 l e Hpre Hstep. unfold explain_loop in *.
    by apply for_state_raise.
Qed.


End Explain.

(** ** Worked examples: SeriesMetricsEngine *)

(** Series "A" with true values [1, NaN] and forecasts [1, 2]: one valid
    pair, one missing value, and no column. *)
Lemma partly_missing_series_gets_no_column_witness :
  @_test_evaluate_metrics (demo_metrics_lib demo_test_A_nan) (demo_spec "arima" 2)
     demo_forecast_A (Num 1)
  = ([LogDebug (MsgNoValuesInTestData "A")], inr (new_frame, new_frame, demo_test_A_nan)).
Proof.
  apply (@partly_missing_series_gets_no_column (demo_metrics_lib demo_test_A_nan)
           (demo_spec "arima" 2) demo_test_A_nan "A" [Num 1; NaN] [Num 1; Num 2] (Num 1));
    reflexivity.
Defined.

(** Series "B" has a forecast and no test data, and comes first. *)
Lemma missing_first_series_raises_witness :
  @_test_evaluate_metrics (demo_metrics_lib demo_test_A) (demo_spec "arima" 2)
     [("B", [Num 3; Num 5]); ("A", [Num 1; Num 2])] (Num 1)
  = ([LogWarn (MsgSeriesNotInTestData "B")], inl (UnboundLocalError "y_true")).
Proof.
  apply (@missing_first_series_raises (demo_metrics_lib demo_test_A)
           (demo_spec "arima" 2) demo_test_A "B" [Num 3; Num 5]
           [("A", [Num 1; Num 2])] (Num 1)); reflexivity.
Defined.

(** Series "B" has a forecast and no test data, and comes after "A": it gets
    a column all the same, scored against the true values of "A". *)
Example missing_later_series_gets_column :
  exists total summary,
    @_test_evaluate_metrics (demo_metrics_lib demo_test_A) (demo_spec "arima" 2)
       demo_forecast_AB (Num 1)
    = ([LogWarn (MsgSeriesNotInTestData "B")], inr (total, summary, demo_test_A))
    /\ columns total = [Name "A"; Name "B"]
    /\ @score (demo_metrics_lib demo_test_A) SMAPE [Num 1; Num 4] [Num 3; Num 5]
       = inr (cell_at total (Metric SMAPE) (Name "B")).
Proof. do 2 eexists. split; [vm_compute; reflexivity |]. split; reflexivity. Qed.

(** With horizon 2, under the limit of 10, the breakdown rows come after the
    "All Targets" row, not before it. *)
Lemma breakdown_not_prepended :
  exists total summary mph,
    @_test_evaluate_metrics (demo_metrics_lib demo_test_A) (demo_spec "arima" 2)
       demo_forecast_A (Num 1)
    = ([], inr (total, summary, demo_test_A))
    /\ horizon (demo_spec "arima" 2)
       <= @SUMMARY_METRICS_HORIZON_LIMIT (demo_metrics_lib demo_test_A)
    /\ @_build_metrics_per_horizon (demo_metrics_lib demo_test_A) demo_test_A demo_forecast_A
       = inr mph
    /\ index mph = [Row 1; Row 2]
    /\ index summary = [all_targets; Row 1; Row 2]
    /\ index summary <> index mph ++ [all_targets].
Proof.
  do 3 eexists. split; [vm_compute; reflexivity |].
  split; [by vm_compute |]. split; [reflexivity |]. split; [reflexivity |].
  split; [reflexivity | discriminate].
Qed.


Lemma breakdown_appended_up_to_limit_witness :
  exists total summary,
    @_test_evaluate_metrics (demo_metrics_lib demo_test_A) (demo_spec "arima" 2)
       demo_forecast_A (Num 1)
    = ([], inr (total, summary, demo_test_A))
    /\ index summary = [all_targets; Row 1; Row 2]
    /\ columns summary = new_column_order.
Proof.
  edestruct (@breakdown_appended_up_to_limit (demo_metrics_lib demo_test_A)
               (demo_spec "arima" 2) demo_forecast_A (Num 1) demo_test_A)
    as (agg & _ & _ & Happend & _); [reflexivity | reflexivity | reflexivity |].
  destruct (Happend (mkDataFrame [Row 1; Row 2] horizon_columns []))
    as (summary & Hrun & Hi & Hc).
  - vm_compute. discriminate.
  - reflexivity.
  - reflexivity.
  - apply mem_true. reflexivity.
  - apply mem_true. reflexivity.
  - eexists _, summary. split; [exact Hrun |]. split; [exact Hi | exact Hc].
Defined.


(** ** Worked examples: ReportAssembler and PersistArtifacts *)





(** Metrics requested and the training metrics table empty, not [None]: the
    metrics CSV is written and no warning is logged. *)
Lemma empty_metrics_table_is_written :
  df_empty new_frame = true
  /\ generate_metrics (demo_spec "arima" 2) = true
  /\ logged (@_save_report (demo_report_lib ∅) (demo_run_self "arima" demo_forecast_A) []
               new_frame (Some new_frame) None)
     = [ Written ReportHtml "out/report.html" false;
         Written ForecastCsv "out/forecast.csv" false;
         Written MetricsCsv "out/metrics.csv" false;
         LogWarn MsgTestMetricsNotGenerated;
         LogInfo MsgOutputsGenerated; Printed MsgOutputsGenerated;
         LogInfo MsgAllModelingCompleted ].
Proof. split; [| split]; reflexivity. Qed.

Lemma no_metrics_csv_when_metrics_none_witness :
  Written ForecastCsv "out/forecast.csv" false
  ∈ logged (@_save_report (demo_report_lib ∅) (demo_run_self "arima" demo_forecast_A) []
              new_frame None None)
  /\ LogWarn MsgTrainMetricsNotGenerated
     ∈ logged (@_save_report (demo_report_lib ∅) (demo_run_self "arima" demo_forecast_A) []
                 new_frame None None)
  /\ outcome (@_save_report (demo_report_lib ∅) (demo_run_self "arima" demo_forecast_A) []
                new_frame None None) = inr tt.
Proof.
  destruct (@no_metrics_csv_when_metrics_none (demo_report_lib ∅)
              (demo_run_self "arima" demo_forecast_A) [] new_frame None eq_refl)
    as (_ & Htrace & Hreturns).
  destruct Htrace as [Hcsv Hwarn]; [reflexivity | reflexivity |].
  split; [exact Hcsv |]. split; [exact Hwarn |]. apply Hreturns. reflexivity.
Defined.

(** ** Worked examples: ExplanationEngine *)

(** "B" and "A" both have fitted models; the explainer fails on the data of
    "B", which comes first, and "A" is left without explanations, although
    it is explained when it is alone. *)
Lemma failure_leaves_later_series_unexplained :
  (@explain_model demo_explain_lib
     (demo_explain_self [("B", demo_table_nan); ("A", demo_table)])).2.2
  = Some (ValueError "Input contains NaN")
  /\ global_explanation
       (@explain_model demo_explain_lib
          (demo_explain_self [("B", demo_table_nan); ("A", demo_table)])).2.1 !! "A" = None
  /\ local_explanation
       (@explain_model demo_explain_lib
          (demo_explain_self [("B", demo_table_nan); ("A", demo_table)])).2.1 !! "A" = None
  /\ global_explanation
       (@explain_model demo_explain_lib (demo_explain_self [("A", demo_table)])).2.1 !! "A"
     = Some [("x", Num 3); ("y", Num 3)].
Proof. split; [| split; [| split]]; vm_compute; reflexivity. Qed.

(** "C" has no fitted model and sits between "A" and "B". *)
Lemma series_without_model_is_passed_over_witness :
  exists lg self',
    @explain_model demo_explain_lib
      (demo_explain_self [("A", demo_table); ("C", demo_table); ("B", demo_table_empty)])
    = (lg, (self', None))
    /\ global_explanation self' !! "C" = None
    /\ local_explanation self' !! "C" = None
    /\ LogWarn (MsgSkippingExplanations "C") ∈ lg.
Proof.
  eexists _, _. split; [vm_compute; reflexivity |].
  match goal with
  | |- global_explanation ?s !! _ = _ /\ _ /\ _ ∈ ?lg =>
      destruct (proj1 (@series_without_model_is_passed_over demo_explain_lib)
                  (demo_explain_self
                     [("A", demo_table); ("C", demo_table); ("B", demo_table_empty)])
                  lg s None
                  {["A" := FittedModel "arima"; "B" := FittedModel "arima"]} "C")
        as (Hg & Hl & Hw)
  end.
  - vm_compute. reflexivity.
  - reflexivity.
  - reflexivity.
  - split; [exact (eq_trans Hg eq_refl) |]. split; [exact (eq_trans Hl eq_refl) |].
    apply (Hw demo_table); [reflexivity | repeat constructor].
Defined.


(** * Further properties *)

(** ** Horizon slicing *)

Lemma slice_split {A} (k : Z) (a : list A) : slice_to k a ++ slice_from k a = a.
Proof. unfold slice_to, slice_from. destruct (k <? 0); apply take_drop. Qed.

(** X1. For every horizon (positive, zero or negative) and every frame,
    [drop_horizon] and [get_horizon] cut the rows in two at the same place:
    the rows of the first followed by the rows of the second are the rows of
    the frame, and both keep its columns. *)
Theorem drop_and_get_horizon_partition self df :
  trows (drop_horizon self df) ++ trows (get_horizon self df) = trows df
  /\ tcolumns (drop_horizon self df) = tcolumns df
  /\ tcolumns (get_horizon self df) = tcolumns df.
Proof. split; [apply slice_split | done]. Qed.

(** X2. With a positive horizon [h], [get_horizon] keeps the last [h] rows
    (all of them when the frame has fewer) and [drop_horizon] the rows before
    them. With horizon zero the slices are [iloc[:0]] and [iloc[0:]]:
    [drop_horizon] returns no row at all and [get_horizon] the whole
    frame. *)
Theorem horizon_row_counts self df :
  (0 < horizon (spec self) ->
   length (trows (get_horizon self df))
   = Nat.min (Z.to_nat (horizon (spec self))) (length (trows df))
   /\ length (trows (drop_horizon self df))
      = (length (trows df) - Z.to_nat (horizon (spec self)))%nat)
  /\ (horizon (spec self) = 0 ->
      trows (drop_horizon self df) = [] /\ get_horizon self df = df).
Proof.
  unfold get_horizon, drop_horizon, slice_from, slice_to. split.
  - intros Hh. simpl. rewrite (proj2 (Z.ltb_lt _ _)) by lia.
    rewrite length_drop, length_take. lia.
  - intros ->. simpl. split; [done |]. by destruct df.
Qed.

Lemma horizon_row_counts_witness :
  (length (trows (get_horizon (demo_explain_self []) demo_table)) = 2%nat
   /\ length (trows (drop_horizon (demo_explain_self []) demo_table)) = 0%nat)
  /\ (trows (drop_horizon (demo_self (demo_spec "arima" 0) (demo_datasets [] []) ∅ [])
               demo_table) = []
      /\ get_horizon (demo_self (demo_spec "arima" 0) (demo_datasets [] []) ∅ []) demo_table
         = demo_table).
Proof.
  destruct (horizon_row_counts (demo_explain_self []) demo_table) as [Hpos _].
  destruct (horizon_row_counts (demo_self (demo_spec "arima" 0) (demo_datasets [] []) ∅ [])
              demo_table) as [_ Hzero].
  split; [apply Hpos; reflexivity | apply Hzero; reflexivity].
Defined.

(** ** More of the SeriesMetricsEngine *)

Section MoreMetrics.
Context `{MetricsLib}.

#[local] Arguments _build_metrics_df : simpl never.
#[local] Arguments last_values : simpl never.

(** An iteration that returns has added the column of its series or nothing. *)
Lemma metrics_step_columns horizon fo data st s lg st' :
  metrics_step horizon fo data st s = (lg, inr st') ->
  columns (total_metrics st') = columns (total_metrics st)
  \/ columns (total_metrics st') = columns (total_metrics st) ++ [Name s].
Proof.
  unfold metrics_step. intros Hstep.
  apply bind_inr in Hstep as (l1 & yt1 & l2 & _ & Hstep & _).
  apply bind_inr in Hstep as (l3 & fc & l4 & _ & Hstep & _).
  apply bind_inr in Hstep as (l5 & yt & l6 & _ & Hstep & _).
  apply bind_inr in Hstep as (l7 & mask & l8 & _ & Hstep & _).
  destruct (negb (np_all mask)); [destruct (np_any mask) |].
  - apply bind_inr in Hstep as (? & ? & ? & _ & Hr & _). injection Hr as _ <-. by left.
  - apply bind_inr in Hstep as (? & ? & ? & _ & Hstep & _).
    apply bind_inr in Hstep as (? & yt' & ? & _ & Hstep & _).
    apply bind_inr in Hstep as (? & yp' & ? & _ & Hstep & _).
    apply bind_inr in Hstep as (? & df & ? & Hdf & Hr & _).
    injection Hr as _ <-. simpl.
    apply _build_metrics_df_inr in Hdf as (_ & _ & ->). by right.
  - apply bind_inr in Hstep as (? & df & ? & Hdf & Hr & _).
    injection Hr as _ <-. simpl.
    apply _build_metrics_df_inr in Hdf as (_ & _ & ->). by right.
Qed.

Lemma metrics_loop_columns horizon fo data ids : forall st lg st',
  forM ids st (metrics_step horizon fo data) = (lg, inr st') ->
  exists ids', sublist ids' ids
    /\ columns (total_metrics st') = columns (total_metrics st) ++ map Name ids'.
Proof.
  induction ids as [| s ids IH]; intros st lg st' Hrun; simpl in Hrun.
  - injection Hrun as _ <-. exists []. split; [done |]. by rewrite app_nil_r.
  - apply bind_inr in Hrun as (l1 & st1 & l2 & Hstep & Hrest & _).
    apply IH in Hrest as (ids' & Hsub & ->).
    apply metrics_step_columns in Hstep as [-> | ->].
    + exists ids'. split; [by apply sublist_cons | done].
    + exists (s :: ids'). split; [by apply sublist_skip |]. by rewrite <- app_assoc.
Qed.

(** X3. The metrics table that [_test_evaluate_metrics] returns has its
    columns among the series of the forecast output, each at most as often
    as it occurs there and in the order of the forecast output; when it has
    a column its rows are the five metrics. *)
Theorem metrics_columns_follow_forecast_order spec fo t total summary data :
  outcome (_test_evaluate_metrics spec fo t) = inr (total, summary, data) ->
  exists ids,
    sublist ids (list_series_ids fo)
    /\ columns total = map Name ids
    /\ (ids <> [] -> index total = map Metric series_metrics).
Proof.
  intros [lg Hrun]%outcome_inr. unfold _test_evaluate_metrics in Hrun.
  apply bind_inr in Hrun as (? & data0 & ? & _ & Hrun & _).
  apply bind_inr in Hrun as (? & st & ? & Hloop & Hrun & _).
  assert (Htotal : total = total_metrics st).
  { destruct (df_empty (total_metrics st)); [by injection Hrun as _ <- _ _ |].
    apply bind_inr in Hrun as (? & agg & ? & _ & Hrun & _).
    apply bind_inr in Hrun as (? & summary' & ? & _ & Hrun & _).
    by injection Hrun as _ <- _ _. }
  subst total. pose proof (metrics_loop_shape _ _ _ _ _ Hloop) as Hshape.
  unfold metrics_loop_run in Hloop.
  apply metrics_loop_columns in Hloop as (ids & Hsub & Hcols). simpl in Hcols.
  exists ids. split; [done |]. split; [done |]. intros Hne.
  destruct Hshape as [[_ Hc] | [Hi _]]; [| done].
  rewrite Hc in Hcols. by destruct ids.
Qed.

Lemma metrics_loop_complete horizon fo data ids : forall st,
  (forall s, s ∈ ids ->
     exists col fc vals,
       assoc s data = Some col /\ assoc s fo = Some fc
       /\ length (last_values horizon col) = length (last_values horizon fc)
       /\ np_all (zip_with valid_pair (last_values horizon col) (last_values horizon fc))
          = true
       /\ score_all series_metrics (last_values horizon col) (last_values horizon fc)
          = inr vals) ->
  exists st',
    forM ids st (metrics_step horizon fo data) = ([], inr st')
    /\ columns (total_metrics st') = columns (total_metrics st) ++ map Name ids.
Proof.
  induction ids as [| s ids IH]; intros st Hall; simpl.
  - exists st. split; [done |]. by rewrite app_nil_r.
  - destruct (Hall s) as (col & fc & vals & Hd & Hf & Hlen & Hv & Hs);
      [by apply elem_of_cons; left |].
    rewrite (metrics_step_complete _ _ _ _ _ _ _ _ Hd Hf Hlen Hv Hs). simpl.
    destruct (IH (mkLoop (Some (last_values horizon col))
                    (concat_columns (total_metrics st) (column_frame (Name s) vals))))
      as (st' & -> & Hcols).
    { intros s' Hs'. apply Hall. apply elem_of_cons. by right. }
    exists st'. split; [done |]. rewrite Hcols. simpl. by rewrite <- app_assoc.
Qed.

(** X4. When every series of the forecast output has test data, as many
    true values as forecasts in its last [horizon] points, no NaN among them,
    and scores that the scoring functions accept, the loop of
    [_test_evaluate_metrics] ends without a log record and the metrics table
    has exactly one column per series, in the order of the forecast
    output. *)
Theorem complete_series_all_get_columns horizon fo data :
  (forall s, s ∈ list_series_ids fo ->
     exists col fc vals,
       assoc s data = Some col /\ assoc s fo = Some fc
       /\ length (last_values horizon col) = length (last_values horizon fc)
       /\ np_all (zip_with valid_pair (last_values horizon col) (last_values horizon fc))
          = true
       /\ score_all series_metrics (last_values horizon col) (last_values horizon fc)
          = inr vals) ->
  exists st,
    metrics_loop_run horizon fo data = ([], inr st)
    /\ columns (total_metrics st) = map Name (list_series_ids fo).
Proof.
  intros Hall. unfold metrics_loop_run.
  destruct (metrics_loop_complete horizon fo data (list_series_ids fo)
              (mkLoop None new_frame) Hall) as (st & Hrun & Hcols).
  exists st. split; [done |]. by rewrite Hcols.
Qed.



End MoreMetrics.

Lemma complete_series_all_get_columns_witness :
  exists st,
    @metrics_loop_run (demo_metrics_lib [("A", [Num 1; Num 4]); ("B", [Num 2; Num 2])])
      2 demo_forecast_AB [("A", [Num 1; Num 4]); ("B", [Num 2; Num 2])]
    = ([], inr st)
    /\ columns (total_metrics st) = [Name "A"; Name "B"].
Proof.
  apply (@complete_series_all_get_columns
           (demo_metrics_lib [("A", [Num 1; Num 4]); ("B", [Num 2; Num 2])])
           2 demo_forecast_AB [("A", [Num 1; Num 4]); ("B", [Num 2; Num 2])]).
  intros s Hs. simpl in Hs. rewrite !elem_of_cons, elem_of_nil in Hs.
  destruct Hs as [-> | [-> | []]]; do 3 eexists; repeat split; reflexivity.
Defined.

Lemma metrics_columns_follow_forecast_order_witness :
  exists total summary,
    @_test_evaluate_metrics
      (demo_metrics_lib [("A", [Num 1; Num 4]); ("B", [Num 2; Num 2])])
      (demo_spec "arima" 11) demo_forecast_AB (Num 1)
    = ([], inr (total, summary, [("A", [Num 1; Num 4]); ("B", [Num 2; Num 2])]))
    /\ exists ids, sublist ids ["A"; "B"] /\ columns total = map Name ids.
Proof.
  eexists _, _. split; [vm_compute; reflexivity |].
  match goal with
  | |- exists ids, _ /\ columns ?tot = _ =>
      edestruct (@metrics_columns_follow_forecast_order
                   (demo_metrics_lib [("A", [Num 1; Num 4]); ("B", [Num 2; Num 2])])
                   (demo_spec "arima" 11) demo_forecast_AB (Num 1) tot)
        as (ids & Hsub & Hcols & _); [vm_compute; reflexivity |]
  end.
  exists ids. split; [exact Hsub | exact Hcols].
Defined.


(** ** More of the orchestration: [generate_report] *)

Section MoreReport.
Context `{MetricsLib} `{ReportLib}.

(** X6. [_load_model] never raises: whatever goes wrong while the pickle of
    the previous run is read is swallowed by the bare [except] and logged as
    "model.pkl is not present", leaving the object as it was; only a
    successful read sets [loaded_models]. *)
Theorem _load_model_never_raises self :
  exists lg self',
    _load_model self = (lg, inr self')
    /\ ((lg = [LogInfo MsgModelPklNotPresent] /\ self' = self
         /\ forall dir, previous_output_dir (spec self) = Some dir ->
                        exists e, load_pkl (dir ++ "/model.pkl") = inl e)
        \/ (lg = []
            /\ exists dir m,
                 previous_output_dir (spec self) = Some dir
                 /\ load_pkl (dir ++ "/model.pkl") = inr m
                 /\ self' = set_loaded_models (Some m) self)).
Proof.
  unfold _load_model. destruct (previous_output_dir (spec self)) as [dir |]; simpl.
  - destruct (load_pkl (dir ++ "/model.pkl")) as [e | m] eqn:Hl; simpl.
    + eexists _, _. split; [done |]. left. split; [done |]. split; [done |].
      intros dir' [= <-]. eauto.
    + eexists _, _. split; [done |]. right. split; [done |]. eauto.
  - eexists _, _. split; [done |]. left. split; [done |]. split; [done |]. done.
Qed.

(** X7. In the metrics stage of [generate_report] only the training metrics
    can raise. Once they are computed, a failure of the test evaluation,
    whatever the exception, is logged ("Unable to generate Test Metrics." and
    the traceback) and the stage returns with the training metrics stored and
    neither test metrics, summary nor test data; a test evaluation that
    returns stores its table and hands on its summary and data. *)
Theorem test_metrics_failure_is_contained self t l em :
  generate_report (spec self) || generate_metrics (spec self) = true ->
  generate_train_metrics (set_eval_metrics None self) = (l, inr em) ->
  (test_data (spec self) = None ->
   metrics_stage self t = (l, inr (set_eval_metrics (Some em) self, None, None)))
  /\ (forall fo l' e,
        test_data (spec self) <> None -> forecast_output self = Some fo ->
        _test_evaluate_metrics (spec self) fo t = (l', inl e) ->
        metrics_stage self t
        = (l ++ l' ++ [LogWarn MsgUnableTestMetrics; LogDebug (MsgFullTraceback e)],
           inr (set_eval_metrics (Some em) self, None, None)))
  /\ (forall fo l' tem sm td,
        test_data (spec self) <> None -> forecast_output self = Some fo ->
        _test_evaluate_metrics (spec self) fo t = (l', inr (tem, sm, td)) ->
        metrics_stage self t
        = (l ++ l',
           inr (set_test_eval_metrics (Some tem) (set_eval_metrics (Some em) self),
                Some sm, Some td))).
Proof.
  intros Hflags Htrain. unfold metrics_stage.
  change (spec (set_eval_metrics None self)) with (spec self). rewrite Hflags, Htrain.
  cbn [bind].
  change (spec (set_eval_metrics (Some em) (set_eval_metrics None self))) with (spec self).
  change (forecast_output (set_eval_metrics (Some em) (set_eval_metrics None self)))
    with (forecast_output self).
  split; [| split].
  - intros Htd. rewrite Htd. simpl. by rewrite app_nil_r.
  - intros fo l' e Htd Hfo Hrun. rewrite bool_decide_true by done.
    rewrite Hfo. cbn [attr try_except bind ret]. rewrite Hrun. simpl.
    by rewrite ?app_nil_r.
  - intros fo l' tem sm td Htd Hfo Hrun. rewrite bool_decide_true by done.
    rewrite Hfo. cbn [attr try_except bind ret]. rewrite Hrun. simpl.
    by rewrite ?app_nil_r.
Qed.

(** X8. [_save_report] is the last step of [generate_report]: when the
    training metrics or the assembly of the report sections raise, the
    exception leaves [generate_report] and the trace of the run is the trace
    of the stages before it, so that nothing is saved, not even the forecast
    CSV of the models that were built. *)
Theorem failure_before_saving_writes_nothing self l0 self1 l1 self2 result_df :
  load_stage self = (l0, inr self1) ->
  _build_model self1 = (l1, inr (self2, result_df)) ->
  (forall l2 e,
      metrics_stage self2 build_elapsed_time = (l2, inl e) ->
      generate_report_run self = (l0 ++ l1 ++ [LogInfo MsgBuildCompleted] ++ l2, inl e))
  /\ (forall l2 self3 sm td l3 e,
        metrics_stage self2 build_elapsed_time = (l2, inr (self3, sm, td)) ->
        generate_report (spec self3) = true ->
        build_report_sections self3 build_elapsed_time sm td = (l3, inl e) ->
        generate_report_run self
        = (l0 ++ l1 ++ [LogInfo MsgBuildCompleted] ++ l2 ++ l3, inl e)).
Proof.
  intros Hload Hbuild. unfold load_stage in Hload. unfold generate_report_run.
  rewrite Hload. cbn [bind]. rewrite Hbuild. cbn [bind emit]. split.
  - intros l2 e Hstage. rewrite Hstage. simpl. done.
  - intros l2 self3 sm td l3 e Hstage Hgen Hsec. rewrite Hstage. cbn [bind].
    rewrite Hgen, Hsec. simpl. done.
Qed.

Lemma mem_true_not {K} `{EqDecision K} (k : K) (l : list K) : mem k l = false -> k ∉ l.
Proof. intros Hm Hin%mem_true. congruence. Qed.

Lemma assoc_column_means_none stats c :
  c ∉ columns stats -> assoc c (column_means stats) = None.
Proof.
  unfold column_means. induction (columns stats) as [| x cols IH]; [done |].
  intros [Hne Hc]%not_elem_of_cons. simpl. rewrite decide_False by done. by apply IH.
Qed.

Lemma keys_after_del_list {V} (g : label -> V) (bt : label) (cols : list label) :
  map fst (filter (fun kv : label * V => kv.1 <> bt) (map (fun c => (c, g c)) cols))
  = filter (fun c => c <> bt) cols.
Proof.
  induction cols as [| x cols IH]; [done |].
  simpl. rewrite !filter_cons. simpl.
  destruct (decide (x <> bt)); simpl; by rewrite IH.
Qed.

Lemma filter_none_left (bt : label) (cols : list label) :
  (forall c, c ∈ cols -> c = bt) -> filter (fun c => c <> bt) cols = [].
Proof.
  induction cols as [| x cols IH]; [done |]. intros Hall.
  rewrite filter_cons. rewrite decide_False.
  - apply IH. intros c Hc. apply Hall. apply elem_of_cons. by right.
  - intros Hne. apply Hne. apply Hall. apply elem_of_cons. by left.
Qed.

Lemma min_from_nan {K} (f : K -> fval) (rest : list K) best :
  f best = NaN -> min_from f best rest = best.
Proof.
  intros Hb. induction rest as [| k rest IH]; simpl; [done |].
  rewrite Hb. by destruct (f k).
Qed.

(** X9. The choice of the best model fails in two ways, each of which aborts
    the report: a statistics file without a "backtest" column makes
    [del average_dict['backtest']] raise [KeyError], and a file with no other
    column makes [min] raise [ValueError] on the empty dictionary. *)
Theorem backtest_best_model_errors stats :
  (Name "backtest" ∉ columns stats ->
   backtest_best_model stats = inl (KeyError (Name "backtest")))
  /\ (Name "backtest" ∈ columns stats ->
      (forall c, c ∈ columns stats -> c = Name "backtest") ->
      backtest_best_model stats = inl (ValueError "min() arg is an empty sequence")).
Proof.
  unfold backtest_best_model, dict_del. split.
  - intros Hbt. by rewrite assoc_column_means_none.
  - intros Hbt Hall. destruct (assoc_column_means _ _ Hbt) as [v ->].
    unfold column_means. rewrite keys_after_del_list.
    by rewrite filter_none_left.
Qed.

(** X10. [min] never replaces a key whose value is NaN, every comparison
    with NaN being false: when the first column after "backtest" is removed
    has a NaN mean (no score at all in it, or a file without rows), that
    column is named the best model, whatever the means of the others. *)
Theorem nan_mean_first_model_is_chosen stats c rest :
  Name "backtest" ∈ columns stats ->
  filter (fun c => c <> Name "backtest") (columns stats) = c :: rest ->
  column_mean stats c = NaN ->
  exists avg, backtest_best_model stats = inr (avg, c).
Proof.
  intros Hbt Hcols Hnan. unfold backtest_best_model, dict_del.
  destruct (assoc_column_means _ _ Hbt) as [v ->].
  unfold column_means. rewrite keys_after_del_list, Hcols. simpl.
  assert (Hc : c <> Name "backtest" /\ c ∈ columns stats).
  { apply (list_elem_of_filter (fun c => c <> Name "backtest")). rewrite Hcols.
    apply elem_of_cons. by left. }
  destruct Hc as [Hne Hc].
  rewrite min_from_nan; [by eexists |].
  unfold dict_get. by rewrite assoc_after_del.
Qed.

End MoreReport.

(** Series "B" is forecast and has no test data: the test evaluation raises
    and the stage returns with the training metrics alone. *)
Lemma test_metrics_failure_is_contained_witness :
  @metrics_stage (demo_metrics_lib demo_test_A) (demo_report_lib ∅)
    (demo_run_self "arima" [("B", [Num 3; Num 5])]) (Num 1)
  = ([] ++ [LogWarn (MsgSeriesNotInTestData "B")]
        ++ [LogWarn MsgUnableTestMetrics;
            LogDebug (MsgFullTraceback (UnboundLocalError "y_true"))],
     inr (set_eval_metrics
            (Some (column_frame (Name "Series 1") [(Metric SMAPE, Num 1)]))
            (demo_run_self "arima" [("B", [Num 3; Num 5])]),
          None, None)).
Proof.
  apply (proj1 (proj2 (@test_metrics_failure_is_contained
                         (demo_metrics_lib demo_test_A) (demo_report_lib ∅)
                         (demo_run_self "arima" [("B", [Num 3; Num 5])]) (Num 1) []
                         (column_frame (Name "Series 1") [(Metric SMAPE, Num 1)])
                         eq_refl eq_refl))
           [("B", [Num 3; Num 5])] [LogWarn (MsgSeriesNotInTestData "B")]
           (UnboundLocalError "y_true") ltac:(discriminate) eq_refl eq_refl).
Defined.

(** Model "auto-select" without its statistics file: the run ends in
    [FileNotFoundError] with the build record as its whole trace. *)
Lemma failure_before_saving_writes_nothing_witness :
  @generate_report_run (demo_metrics_lib demo_test_A) (demo_report_lib ∅)
    (demo_run_self "auto-select" demo_forecast_A)
  = ([] ++ [] ++ [LogInfo MsgBuildCompleted] ++ [] ++ [],
     inl (FileNotFoundError "out/backtest_stats.csv")).
Proof.
  edestruct (@failure_before_saving_writes_nothing
               (demo_metrics_lib demo_test_A) (demo_report_lib ∅)
               (demo_run_self "auto-select" demo_forecast_A) []
               (demo_run_self "auto-select" demo_forecast_A) []
               (demo_run_self "auto-select" demo_forecast_A) new_frame eq_refl eq_refl)
    as [_ Hsections].
  eapply Hsections; [vm_compute; reflexivity | reflexivity | vm_compute; reflexivity].
Defined.

Lemma backtest_best_model_errors_witness :
  backtest_best_model (mkDataFrame [Row 0] [Name "modelA"] [])
  = inl (KeyError (Name "backtest"))
  /\ backtest_best_model (mkDataFrame [Row 0] [Name "backtest"] [])
     = inl (ValueError "min() arg is an empty sequence").
Proof.
  split.
  - apply (proj1 (backtest_best_model_errors (mkDataFrame [Row 0] [Name "modelA"] []))).
    apply mem_true_not. reflexivity.
  - apply (proj2 (backtest_best_model_errors (mkDataFrame [Row 0] [Name "backtest"] []))).
    + apply mem_true. reflexivity.
    + intros c Hc. simpl in Hc. by apply list_elem_of_singleton in Hc.
Defined.

(** "modelA" has no score in any backtest and comes first: it is named the
    best model although "modelB" has scores. *)
Lemma nan_mean_first_model_is_chosen_witness :
  exists avg, backtest_best_model demo_backtest_stats_nan = inr (avg, Name "modelA").
Proof.
  apply (nan_mean_first_model_is_chosen demo_backtest_stats_nan (Name "modelA")
           [Name "modelB"]).
  - apply mem_true. reflexivity.
  - reflexivity.
  - reflexivity.
Defined.

(** ** More of PersistArtifacts: [_save_report] *)

Section MorePersist.
Context `{ReportLib}.

(** Sequencing of steps that return, and of a step that raises. *)
Lemma chain_ok (m m' : M unit) l l' :
  m = (l, inr tt) -> m' = (l', inr tt) -> bind m (fun _ => m') = (l ++ l', inr tt).
Proof. by intros -> ->. Qed.

Lemma chain_raise (m m' : M unit) l l' e :
  m = (l, inr tt) -> m' = (l', inl e) -> bind m (fun _ => m') = (l ++ l', inl e).
Proof. by intros -> ->. Qed.

Lemma raise_first (m m' : M unit) l e :
  m = (l, inl e) -> bind m (fun _ => m') = (l, inl e).
Proof. by intros ->. Qed.

Lemma when_ok b (m : M unit) l :
  m = (l, inr tt) -> when b m = ((if b then l else []), inr tt).
Proof. intros ->. by destruct b. Qed.

Lemma option_ok {A} (x : option A) (m1 m2 : M unit) l1 l2 :
  m1 = (l1, inr tt) -> m2 = (l2, inr tt) ->
  match x with Some _ => m1 | None => m2 end
  = ((if is_not_none x then l1 else l2), inr tt).
Proof. intros -> ->. by destruct x. Qed.

Lemma errors_ok {A} (d : list A) (m1 m2 : M unit) l1 l2 :
  m1 = (l1, inr tt) -> m2 = (l2, inr tt) ->
  match d with _ :: _ => m1 | [] => m2 end
  = ((if truthy d then l1 else l2), inr tt).
Proof. intros -> ->. by destruct d. Qed.

Lemma try_ok (m : M unit) (h : exn -> M unit) l :
  m = (l, inr tt) -> try_except m h = (l, inr tt).
Proof. by intros ->. Qed.

Lemma write_ok a path signed :
  write_failure a path = None ->
  write_artifact a path signed = ([Written a path signed], inr tt).
Proof. intros Hok. unfold write_artifact. by rewrite Hok. Qed.

Lemma write_raise a path signed e :
  write_failure a path = Some e -> write_artifact a path signed = ([], inl e).
Proof. intros Hf. unfold write_artifact. by rewrite Hf. Qed.

Lemma emit_ok ev : emit ev = ([ev], inr tt).
Proof. done. Qed.

(** X11. When no write fails, [_save_report] returns and writes, in this
    order: the report if it is requested, the forecast CSV always, the
    metrics CSV if metrics are requested and the table is not [None], the
    test metrics CSV if metrics are requested, test data is configured and
    the table is not [None], the global and the local explanation CSV if
    explanations are requested and formatted, the model parameters and the
    model pickle if requested, and the errors file if an error was
    recorded. Nothing else is written. *)
Theorem written_artifacts_follow_flags self sections result_df metrics_df test_metrics_df :
  (forall a path, write_failure a path = None) ->
  outcome (_save_report self sections result_df metrics_df test_metrics_df) = inr tt
  /\ written_artifacts
       (logged (_save_report self sections result_df metrics_df test_metrics_df))
     = only_if (generate_report (spec self)) ReportHtml
       ++ [ForecastCsv]
       ++ only_if (generate_metrics (spec self) && is_not_none metrics_df) MetricsCsv
       ++ only_if (generate_metrics (spec self) && is_not_none (test_data (spec self))
                   && is_not_none test_metrics_df) TestMetricsCsv
       ++ only_if (generate_explanations (spec self)
                   && is_not_none (formatted_global_explanation self)) GlobalExplanationCsv
       ++ only_if (generate_explanations (spec self)
                   && is_not_none (formatted_local_explanation self)) LocalExplanationCsv
       ++ only_if (generate_model_parameters (spec self)) ModelParamsJson
       ++ only_if (generate_model_pickle (spec self)) ModelPickle
       ++ only_if (truthy (errors_dict self)) ErrorsJson.
Proof.
  intros Hok.
  eassert (Htrace : _save_report self sections result_df metrics_df test_metrics_df
                    = (_, inr tt)).
  { unfold _save_report, _save_model. cbv zeta.
    repeat first
      [ eapply chain_ok
      | eapply when_ok
      | eapply try_ok
      | eapply option_ok
      | eapply errors_ok
      | apply emit_ok
      | apply write_ok; apply Hok ]. }
  rewrite Htrace. split; [done |]. unfold logged. cbn [fst].
  destruct (test_data (spec self)); cbn [is_not_none bool_decide decide_rel];
    destruct (generate_report (spec self)), (generate_metrics (spec self)),
    metrics_df, test_metrics_df, (generate_explanations (spec self)),
    (formatted_global_explanation self), (formatted_local_explanation self),
    (generate_model_parameters (spec self)), (generate_model_pickle (spec self)),
    (errors_dict self); reflexivity.
Qed.

(** X12. The writes of [_save_report] are not isolated from each other. A
    report that cannot be written stops the call before anything is
    written; a forecast CSV that cannot be written stops it with at most the
    report written: no metrics, explanations, parameters, pickle or errors
    file follows. *)
Theorem failed_write_stops_later_writes self sections result_df metrics_df test_metrics_df e :
  (generate_report (spec self) = true ->
   write_failure ReportHtml
     (path_join (output_directory (spec self)) (report_filename (spec self))) = Some e ->
   _save_report self sections result_df metrics_df test_metrics_df = ([], inl e))
  /\ ((generate_report (spec self) = true ->
       write_failure ReportHtml
         (path_join (output_directory (spec self)) (report_filename (spec self))) = None) ->
      write_failure ForecastCsv
        (path_join (output_directory (spec self)) (forecast_filename (spec self))) = Some e ->
      outcome (_save_report self sections result_df metrics_df test_metrics_df) = inl e
      /\ written_artifacts
           (logged (_save_report self sections result_df metrics_df test_metrics_df))
         = only_if (generate_report (spec self)) ReportHtml).
Proof.
  unfold _save_report, write_artifact. split.
  - intros -> ->. reflexivity.
  - intros Hrep Hfc. rewrite Hfc. destruct (generate_report (spec self)); simpl.
    + rewrite Hrep by done. split; reflexivity.
    + split; reflexivity.
Qed.

(** X13. Inside the explanations block only [AttributeError] is caught.
    When writing the global explanation CSV raises it and every other write
    succeeds, the local explanation CSV is not attempted, "Unable to generate
    explanations" is logged and the call goes on to the end; any other
    exception from that write leaves [_save_report], and the parameters, the
    pickle and the errors file are not written. *)
Theorem explanation_write_failure self sections result_df metrics_df test_metrics_df g e :
  generate_explanations (spec self) = true ->
  formatted_global_explanation self = Some g ->
  (forall a path, a <> GlobalExplanationCsv -> write_failure a path = None) ->
  write_failure GlobalExplanationCsv
    (path_join (output_directory (spec self)) (global_explanation_filename (spec self)))
  = Some e ->
  (forall msg, e = AttributeError msg ->
     outcome (_save_report self sections result_df metrics_df test_metrics_df) = inr tt
     /\ mem LocalExplanationCsv
          (written_artifacts
             (logged (_save_report self sections result_df metrics_df test_metrics_df)))
        = false
     /\ LogWarn MsgUnableExplanations
        ∈ logged (_save_report self sections result_df metrics_df test_metrics_df)
     /\ (generate_model_pickle (spec self) = true ->
         mem ModelPickle
           (written_artifacts
              (logged (_save_report self sections result_df metrics_df test_metrics_df)))
         = true))
  /\ ((forall msg, e <> AttributeError msg) ->
      outcome (_save_report self sections result_df metrics_df test_metrics_df) = inl e
      /\ forall a, a ∈ [LocalExplanationCsv; ModelParamsJson; ModelPickle; ErrorsJson] ->
           mem a (written_artifacts
                    (logged (_save_report self sections result_df metrics_df
                               test_metrics_df)))
           = false).
Proof.
  intros Hge Hfg Hok Hfail.
  assert (Hok' : forall a path signed,
            a <> GlobalExplanationCsv ->
            write_artifact a path signed = ([Written a path signed], inr tt)).
  { intros a path signed Ha. apply write_ok. by apply Hok. }
  split.
  - intros msg ->.
    eassert (Htrace : _save_report self sections result_df metrics_df test_metrics_df
                      = (_, inr tt)).
    { unfold _save_report, _save_model. cbv zeta. rewrite Hge, Hfg.
      rewrite (write_raise GlobalExplanationCsv _ _ _ Hfail).
      cbn [bind try_except when].
      repeat first
        [ eapply chain_ok
        | eapply when_ok
        | eapply option_ok
        | eapply errors_ok
        | apply emit_ok
        | apply Hok'; discriminate
        | reflexivity ]. }
    rewrite Htrace. split; [done |]. unfold logged. cbn [fst].
    split; [| split].
    + destruct (test_data (spec self)); cbn [is_not_none bool_decide decide_rel];
        destruct (generate_report (spec self)), (generate_metrics (spec self)),
        metrics_df, test_metrics_df,
        (generate_model_parameters (spec self)), (generate_model_pickle (spec self)),
        (errors_dict self); reflexivity.
    + rewrite !elem_of_app, !elem_of_cons. auto 15.
    + intros ->.
      destruct (test_data (spec self)); cbn [is_not_none bool_decide decide_rel];
        destruct (generate_report (spec self)), (generate_metrics (spec self)),
        metrics_df, test_metrics_df,
        (generate_model_parameters (spec self)), (errors_dict self); reflexivity.
  - intros Hne.
    eassert (Htrace : _save_report self sections result_df metrics_df test_metrics_df
                      = (_, inl e)).
    { unfold _save_report, _save_model. cbv zeta. rewrite Hge, Hfg.
      rewrite (write_raise GlobalExplanationCsv _ _ _ Hfail).
      cbn [bind try_except when].
      eapply chain_raise; [eapply when_ok; apply Hok'; discriminate |].
      eapply chain_raise; [apply Hok'; discriminate |].
      eapply chain_raise;
        [repeat first [ eapply chain_ok | eapply when_ok | eapply option_ok
                      | apply emit_ok | apply Hok'; discriminate ] |].
      eapply raise_first.
      destruct e; try reflexivity. by destruct (Hne msg). }
    rewrite Htrace. split; [done |]. unfold logged. cbn [fst].
    intros a Ha. rewrite !elem_of_cons, elem_of_nil in Ha.
    destruct (test_data (spec self)); cbn [is_not_none bool_decide decide_rel];
      destruct (generate_report (spec self)), (generate_metrics (spec self)),
      metrics_df, test_metrics_df;
      destruct Ha as [-> | [-> | [-> | [-> | []]]]]; reflexivity.
Qed.

End MorePersist.

(** Every artifact requested and available, every write succeeding. *)
Lemma written_artifacts_follow_flags_witness :
  written_artifacts
    (logged (@_save_report (demo_report_lib ∅) demo_self_all [] new_frame
               (Some new_frame) (Some new_frame)))
  = [ ReportHtml; ForecastCsv; MetricsCsv; TestMetricsCsv; GlobalExplanationCsv;
      LocalExplanationCsv; ModelParamsJson; ModelPickle; ErrorsJson ].
Proof.
  destruct (@written_artifacts_follow_flags (demo_report_lib ∅) demo_self_all []
              new_frame (Some new_frame) (Some new_frame)) as [_ Hwritten].
  - reflexivity.
  - exact Hwritten.
Defined.

(** The forecast CSV cannot be written: only the report is. *)
Lemma failed_write_stops_later_writes_witness :
  outcome (@_save_report
             (demo_report_lib_failing
                (fun a _ => match a with
                            | ForecastCsv => Some (OtherError "disk full")
                            | _ => None
                            end))
             demo_self_all [] new_frame (Some new_frame) (Some new_frame))
  = inl (OtherError "disk full")
  /\ written_artifacts
       (logged (@_save_report
                  (demo_report_lib_failing
                     (fun a _ => match a with
                                 | ForecastCsv => Some (OtherError "disk full")
                                 | _ => None
                                 end))
                  demo_self_all [] new_frame (Some new_frame) (Some new_frame)))
     = [ReportHtml].
Proof.
  apply (proj2 (@failed_write_stops_later_writes
                  (demo_report_lib_failing
                     (fun a _ => match a with
                                 | ForecastCsv => Some (OtherError "disk full")
                                 | _ => None
                                 end))
                  demo_self_all [] new_frame (Some new_frame) (Some new_frame)
                  (OtherError "disk full"))); reflexivity.
Defined.

(** Writing the global explanation raises [AttributeError]: the local
    explanation is not written, the pickle still is. *)
Lemma explanation_write_failure_witness :
  outcome (@_save_report
             (demo_report_lib_failing
                (fun a _ => match a with
                            | GlobalExplanationCsv => Some (AttributeError "to_csv")
                            | _ => None
                            end))
             demo_self_all [] new_frame None None)
  = inr tt
  /\ written_artifacts
       (logged (@_save_report
                  (demo_report_lib_failing
                     (fun a _ => match a with
                                 | GlobalExplanationCsv => Some (AttributeError "to_csv")
                                 | _ => None
                                 end))
                  demo_self_all [] new_frame None None))
     = [ReportHtml; ForecastCsv; ModelParamsJson; ModelPickle; ErrorsJson].
Proof.
  destruct (@explanation_write_failure
              (demo_report_lib_failing
                 (fun a _ => match a with
                             | GlobalExplanationCsv => Some (AttributeError "to_csv")
                             | _ => None
                             end))
              demo_self_all [] new_frame None None demo_table (AttributeError "to_csv"))
    as [Hcaught _].
  - reflexivity.
  - reflexivity.
  - intros a path Ha. by destruct a.
  - reflexivity.
  - destruct (Hcaught "to_csv" eq_refl) as (Hout & _). split; [exact Hout | reflexivity].
Defined.

(** ** More of the ExplanationEngine *)

Section MoreExplain.
Context `{ExplainLib}.

#[local] Arguments local_explainer : simpl never.
#[local] Arguments trim_data : simpl never.
#[local] Arguments explain_step : simpl never.
#[local] Arguments average_axis0 : simpl never.




(** A value that is NaN or a number that is not negative. *)
Lemma numbers_nonneg l qs :
  Forall (fun v => v = NaN \/ exists q, v = Num q /\ (0 <= q)%Q) l ->
  numbers l = Some qs -> Forall (fun q => (0 <= q)%Q) qs.
Proof.
  revert qs. induction l as [| v l IH]; intros qs Hall; simpl.
  - intros [= <-]. constructor.
  - apply Forall_cons in Hall as [Hv Hall]. destruct v as [| q]; [discriminate |].
    destruct (numbers l) as [qs' |]; [| discriminate]. simpl. intros [= <-].
    constructor; [| by apply IH].
    destruct Hv as [| (q' & [= <-] & Hq)]; [discriminate | done].
Qed.

Lemma Qsum_nonneg qs : Forall (fun q => (0 <= q)%Q) qs -> (0 <= Qsum qs)%Q.
Proof.
  induction 1 as [| q qs Hq _ IH]; simpl; [apply Qle_refl |].
  rewrite <- (Qplus_0_r 0). by apply Qplus_le_compat.
Qed.

Lemma Qmean_nonneg qs q :
  Forall (fun q => (0 <= q)%Q) qs -> Qmean qs = Num q -> (0 <= q)%Q.
Proof.
  intros Hall. unfold Qmean. destruct qs as [| q0 qs']; [discriminate |].
  intros [= <-]. rewrite Qred_correct. apply Qle_shift_div_l.
  - change 0%Q with (inject_Z 0). rewrite <- Zlt_Qlt. simpl. lia.
  - rewrite Qmult_0_l. by apply (Qsum_nonneg (q0 :: qs')).
Qed.

Lemma np_mean_nonneg l :
  Forall (fun v => v = NaN \/ exists q, v = Num q /\ (0 <= q)%Q) l ->
  np_mean l = NaN \/ exists q, np_mean l = Num q /\ (0 <= q)%Q.
Proof.
  intros Hall. unfold np_mean. destruct (numbers l) as [qs |] eqn:Hn; [| by left].
  destruct (Qmean qs) as [| q] eqn:Hq; [by left |]. right. exists q. split; [done |].
  eapply Qmean_nonneg; [| exact Hq]. by eapply numbers_nonneg.
Qed.

Lemma nth_Forall {A} (P : A -> Prop) (l : list A) j d :
  Forall P l -> P d -> P (nth j l d).
Proof.
  intros Hall Hd. revert j. induction Hall as [| x l Hx _ IH]; intros [| j]; simpl; auto.
Qed.

(** The column averages of absolute values are NaN or not negative. *)
Lemma average_axis0_nonneg (rows : list (list fval)) v :
  Forall (Forall (fun v => v = NaN \/ exists q, v = Num q /\ (0 <= q)%Q)) rows ->
  v ∈ average_axis0 rows ->
  v = NaN \/ exists q, v = Num q /\ (0 <= q)%Q.
Proof.
  intros Hall. unfold average_axis0. destruct rows as [| r rows'] eqn:Hrows;
    [by intros ?%elem_of_nil |].
  rewrite <- Hrows in *. clear Hrows.
  intros (j & <- & _)%list_elem_of_In%in_map_iff.
  apply np_mean_nonneg. apply Forall_forall.
  intros x (row & <- & Hrow)%list_elem_of_In%in_map_iff.
  apply nth_Forall; [| by left].
  rewrite Forall_forall in Hall. by apply Hall, list_elem_of_In.
Qed.

Lemma average_abs_nonneg (vals : list (list fval)) v :
  v ∈ average_axis0 (map (fun r => map fabs (drop 1 r)) vals) ->
  v = NaN \/ exists q, v = Num q /\ (0 <= q)%Q.
Proof.
  apply average_axis0_nonneg. apply Forall_forall.
  intros r (r0 & <- & _)%list_elem_of_In%in_map_iff. apply Forall_forall.
  intros y (z & <- & _)%list_elem_of_In%in_map_iff.
  destruct z as [| q]; [by left |]. right. exists (Qabs q). split; [done |].
  apply Qabs_nonneg.
Qed.

(** X15. When the attribution values of a series are not empty, the entry
    stored in the global explanation pairs columns of the sampled data other
    than the first with the column averages of the absolute attribution
    values: every importance is NaN or a number that is not negative, and
    there are no more entries than columns after the first. *)
Theorem global_importance_is_not_negative
    ratio dt self s data_i ms fitted trimmed encoded vals lg self1 :
  models self = Some ms -> ms !! s = Some fitted ->
  trim_data ratio dt data_i = inr trimmed ->
  _label_encode_dataframe trimmed [dt; original_target_column self] = inr encoded ->
  shap_values (mkExplainer s fitted encoded) encoded = inr vals ->
  vals <> [] ->
  local_explainer self (mkExplainer s fitted encoded) s dt = (lg, inr self1) ->
  exists entry,
    explain_step ratio dt self (s, data_i)
    = (lg, inr (set_global_explanation (<[s := entry]> (global_explanation self1)) self1))
    /\ (forall k v, (k, v) ∈ entry ->
          k ∈ drop 1 (tcolumns trimmed)
          /\ (v = NaN \/ exists q, v = Num q /\ (0 <= q)%Q))
    /\ (length entry <= length (tcolumns trimmed) - 1)%nat.
Proof.
  intros Hm Hs Htrim Henc Hshap Hne Hloc.
  rewrite (explain_step_fitted _ _ _ _ _ _ _ _ _ _ Hm Hs Htrim Henc Hshap), Hloc.
  destruct vals as [| v0 vals]; [done |]. unfold bind, ret. simpl. rewrite app_nil_r.
  eexists. split; [reflexivity |]. split.
  - intros k v Hin. split.
    + by apply elem_of_zip_l in Hin.
    + apply elem_of_zip_r in Hin. by apply (average_abs_nonneg (v0 :: vals)).
  - rewrite length_zip, length_drop. lia.
Qed.

(** What an iteration that returns has made of the object. *)
Lemma explain_step_result ratio dt self s data_i lg self' :
  explain_step ratio dt self (s, data_i) = (lg, inr self') ->
  self' = self
  \/ (exists df, self' = set_local_explanation (<[s := df]> (local_explanation self)) self)
  \/ (exists df g,
        self' = set_global_explanation (<[s := g]> (global_explanation self))
                  (set_local_explanation (<[s := df]> (local_explanation self)) self)).
Proof.
  unfold explain_step. intros Hstep.
  apply bind_inr in Hstep as (? & ms & ? & _ & Hstep & _).
  destruct (ms !! s) as [fitted |].
  - apply bind_inr in Hstep as (? & trimmed & ? & _ & Hstep & _).
    apply bind_inr in Hstep as (? & encoded & ? & _ & Hstep & _).
    apply bind_inr in Hstep as (? & vals & ? & _ & Hstep & _).
    apply bind_inr in Hstep as (? & self1 & ? & Hloc & Hstep & _).
    apply local_explainer_inr in Hloc as (_ & df & ->).
    destruct vals as [| v vals]; simpl in Hstep.
    + injection Hstep as _ <-. right. left. by eexists.
    + injection Hstep as _ <-. right. right. by eexists _, _.
  - apply bind_inr in Hstep as (? & [] & ? & _ & Hstep & _). injection Hstep as _ <-.
    by left.
Qed.

Lemma explain_loop_grows ratio dt items : forall self lg self' oe,
  for_state items self (explain_step ratio dt) = (lg, (self', oe)) ->
  spec self' = spec self /\ models self' = models self /\ datasets self' = datasets self
  /\ eval_metrics self' = eval_metrics self
  /\ test_eval_metrics self' = test_eval_metrics self
  /\ forecast_output self' = forecast_output self
  /\ (forall s, s ∉ map fst items ->
        global_explanation self' !! s = global_explanation self !! s
        /\ local_explanation self' !! s = local_explanation self !! s)
  /\ (forall s, is_Some (global_explanation self !! s) ->
                is_Some (global_explanation self' !! s))
  /\ (forall s, is_Some (local_explanation self !! s) ->
                is_Some (local_explanation self' !! s)).
Proof.
  induction items as [| [s0 d0] items IH]; intros self lg self' oe; simpl.
  - intros ?. simplify_eq. split_and!; intros; try split; auto.
  - destruct (explain_step ratio dt self (s0, d0)) as [l1 [e | self1]] eqn:Hstep.
    { intros ?. simplify_eq. split_and!; intros; try split; auto. }
    destruct (for_state items self1 _) as [l2 r] eqn:Hrest. intros ?. simplify_eq.
    apply IH in Hrest as (Hsp & Hm & Hd & He & Ht & Hf & Hfresh & Hg & Hl).
    assert (Hkeep : forall s,
              (s <> s0 -> global_explanation self1 !! s = global_explanation self !! s
                          /\ local_explanation self1 !! s = local_explanation self !! s)
              /\ (is_Some (global_explanation self !! s) ->
                  is_Some (global_explanation self1 !! s))
              /\ (is_Some (local_explanation self !! s) ->
                  is_Some (local_explanation self1 !! s))).
    { intros s.
      destruct (explain_step_result _ _ _ _ _ _ _ Hstep)
        as [-> | [(df & ->) | (df & g & ->)]]; simpl.
      - done.
      - split; [intros Hne; by rewrite lookup_insert_ne |]. split; [done |].
        intros Hs. destruct (decide (s0 = s)) as [-> | Hne];
          [by rewrite lookup_insert_eq | by rewrite lookup_insert_ne].
      - split; [intros Hne; by rewrite !lookup_insert_ne |].
        split; intros Hs; (destruct (decide (s0 = s)) as [-> | Hne];
          [by rewrite lookup_insert_eq | by rewrite lookup_insert_ne]). }
    assert (Hsame : spec self1 = spec self /\ models self1 = models self
                    /\ datasets self1 = datasets self
                    /\ eval_metrics self1 = eval_metrics self
                    /\ test_eval_metrics self1 = test_eval_metrics self
                    /\ forecast_output self1 = forecast_output self).
    { by destruct (explain_step_result _ _ _ _ _ _ _ Hstep)
        as [-> | [(df & ->) | (df & g & ->)]]. }
    destruct Hsame as (Hsp1 & Hm1 & Hd1 & He1 & Ht1 & Hf1).
    split_and!; try congruence.
    + intros s [Hne Hs]%not_elem_of_cons.
      destruct (Hfresh s Hs) as [-> ->]. by apply Hkeep.
    + intros s Hs. by apply Hg, Hkeep.
    + intros s Hs. by apply Hl, Hkeep.
Qed.

(** X16. However [explain_model] ends, with or without an exception, it
    leaves the configuration, the datasets, the models, the forecast output
    and the metrics of the object as they were, never removes an entry of
    the global or local explanations, and does not touch the entries of
    series that are not in the data. *)
Theorem explain_model_only_adds_explanations self lg self' oe :
  explain_model self = (lg, (self', oe)) ->
  spec self' = spec self /\ models self' = models self /\ datasets self' = datasets self
  /\ eval_metrics self' = eval_metrics self
  /\ test_eval_metrics self' = test_eval_metrics self
  /\ forecast_output self' = forecast_output self
  /\ (forall s, s ∉ map fst (data_by_series (datasets self)) ->
        global_explanation self' !! s = global_explanation self !! s
        /\ local_explanation self' !! s = local_explanation self !! s)
  /\ (forall s, is_Some (global_explanation self !! s) ->
                is_Some (global_explanation self' !! s))
  /\ (forall s, is_Some (local_explanation self !! s) ->
                is_Some (local_explanation self' !! s)).
Proof.
  intros [(_ & -> & _) | (ratio & lg' & _ & Hloop & _)]%explain_model_inv.
  - split_and!; intros; try split; auto.
  - unfold explain_loop in Hloop. by apply explain_loop_grows in Hloop.
Qed.

(** X17. [explain_model] needs a known accuracy mode and a dictionary of
    models: an accuracy mode that is not in the ratio table raises [KeyError]
    before any series is looked at, and with [models] still [None] the
    membership test of the first series raises [TypeError]; in both cases the
    object is as it was. With no series in the data the call completes and
    changes nothing. *)
Theorem explain_model_preconditions self :
  (assoc (explanations_accuracy_mode (spec self)) SpeedAccuracyMode_ratio = None ->
   explain_model self
   = ([LogInfo MsgCalculatingExplanations],
      (self, Some (KeyError (Name (explanations_accuracy_mode (spec self)))))))
  /\ (forall ratio item rest,
        assoc (explanations_accuracy_mode (spec self)) SpeedAccuracyMode_ratio = Some ratio ->
        models self = None ->
        data_by_series (datasets self) = item :: rest ->
        explain_model self
        = ([LogInfo MsgCalculatingExplanations],
           (self, Some (TypeError "argument of type 'NoneType' is not iterable"))))
  /\ (forall ratio,
        assoc (explanations_accuracy_mode (spec self)) SpeedAccuracyMode_ratio = Some ratio ->
        data_by_series (datasets self) = [] ->
        explain_model self
        = ([LogInfo MsgCalculatingExplanations; LogInfo MsgGlobalExplanationsCompleted;
            LogInfo MsgLocalExplanationsCompleted],
           (self, None))).
Proof.
  unfold explain_model, explain_loop. split; [| split].
  - by intros ->.
  - intros ratio [s d] rest -> Hm ->. simpl. unfold explain_step. by rewrite Hm.
  - by intros ratio -> ->.
Qed.


End MoreExplain.


(** The series "A" of the sample object: importances for "x" and "y". *)
Lemma global_importance_is_not_negative_witness :
  exists entry self1,
    @explain_step demo_explain_lib 0 "ds" (demo_explain_self [("A", demo_table)])
      ("A", demo_table)
    = ([], inr (set_global_explanation (<["A" := entry]> (global_explanation self1)) self1))
    /\ (forall k v, (k, v) ∈ entry ->
          k ∈ ["x"; "y"] /\ (v = NaN \/ exists q, v = Num q /\ (0 <= q)%Q))
    /\ (length entry <= 2)%nat.
Proof.
  edestruct (@global_importance_is_not_negative demo_explain_lib 0 "ds"
               (demo_explain_self [("A", demo_table)]) "A" demo_table
               {["A" := FittedModel "arima"; "B" := FittedModel "arima"]}
               (FittedModel "arima") demo_table demo_table (trows demo_table) [])
    as (entry & Hstep & Hvals & Hlen).
  - reflexivity.
  - reflexivity.
  - reflexivity.
  - reflexivity.
  - reflexivity.
  - discriminate.
  - vm_compute. reflexivity.
  - exists entry. eexists. split; [exact Hstep |]. split; [exact Hvals | exact Hlen].
Defined.

(** The explainer fails on "B" after "A" was explained: the run ends with
    the exception, and only explanations were added. *)
Lemma explain_model_only_adds_explanations_witness :
  exists lg self',
    @explain_model demo_explain_lib
      (demo_explain_self [("A", demo_table); ("B", demo_table_nan)])
    = (lg, (self', Some (ValueError "Input contains NaN")))
    /\ models self' = models (demo_explain_self [("A", demo_table); ("B", demo_table_nan)])
    /\ datasets self' = datasets (demo_explain_self [("A", demo_table); ("B", demo_table_nan)])
    /\ is_Some (global_explanation self' !! "A")
    /\ global_explanation self' !! "C" = None.
Proof.
  set (self := demo_explain_self [("A", demo_table); ("B", demo_table_nan)]).
  set (run := @explain_model demo_explain_lib self).
  assert (Hrun : run = (run.1, (run.2.1, Some (ValueError "Input contains NaN"))))
    by (vm_compute; reflexivity).
  exists run.1, run.2.1. split; [exact Hrun |].
  destruct (@explain_model_only_adds_explanations demo_explain_lib self _ _ _ Hrun)
    as (_ & Hm & Hd & _ & _ & _ & Hfresh & _).
  split; [exact Hm |]. split; [exact Hd |]. split; [vm_compute; eauto |].
  destruct (Hfresh "C") as [Hg _]; [| exact (eq_trans Hg eq_refl)].
  cbn. rewrite !not_elem_of_cons. split_and!; try done. by intros ?%elem_of_nil.
Defined.

(** An accuracy mode that is not in the table, and a call before any model
    is fitted. *)
Lemma explain_model_preconditions_witness :
  @explain_model demo_explain_lib (demo_new_self "EXACT" [("A", demo_table)])
  = ([LogInfo MsgCalculatingExplanations],
     (demo_new_self "EXACT" [("A", demo_table)], Some (KeyError (Name "EXACT"))))
  /\ @explain_model demo_explain_lib (demo_new_self "BALANCED" [("A", demo_table)])
     = ([LogInfo MsgCalculatingExplanations],
        (demo_new_self "BALANCED" [("A", demo_table)],
         Some (TypeError "argument of type 'NoneType' is not iterable"))).
Proof.
  split.
  - apply (proj1 (@explain_model_preconditions demo_explain_lib
                    (demo_new_self "EXACT" [("A", demo_table)]))).
    reflexivity.
  - apply (proj1 (proj2 (@explain_model_preconditions demo_explain_lib
                           (demo_new_self "BALANCED" [("A", demo_table)])))
             (1 # 2) ("A", demo_table) []); reflexivity.
Defined.

